(** * Invite-based authentication: a shallow embedding of [database.js],
      [auth.js], [validation.js] and the routes of [api.js].

    The program keeps all of its state in one SQLite file reached through a
    module-level handle [db].  The embedding below models

    - the four tables as lists of rows in insertion (rowid) order,
    - DATETIME columns as the text SQLite stores in them,
    - the handle as an [option] (the wrappers test [db != null]),
    - JavaScript exceptions as an explicit outcome, with the state reached
      before the throw kept (every statement is its own transaction). *)

From Stdlib Require Import ZArith List String Ascii Bool Lia.
From Stdlib.Strings Require Byte.
Import ListNotations.

Local Open Scope string_scope.
Local Open Scope Z_scope.

(* ================================================================== *)
(** * Text values and the two renderings of an instant *)
(* ================================================================== *)

(** SQLite compares two TEXT values with the BINARY collation, that is
    byte by byte, a proper prefix being smaller.  Neither a DATETIME
    column (NUMERIC affinity) nor a bound text parameter is converted when
    the text is not a well-formed number, which no date is. *)
Definition text_lt (a b : string) : bool := String.ltb a b.

(** A nullable text value; [None] is SQL NULL. *)
Definition sql_text := option string.

(** [a < b] in a WHERE clause: a row is selected only when the comparison
    is true, and a comparison with NULL is never true. *)
Definition sql_lt (a b : sql_text) : bool :=
  match a, b with
  | Some x, Some y => text_lt x y
  | _, _ => false
  end.

Definition digit (n : Z) : ascii := ascii_of_N (48 + Z.to_N (n mod 10)).

Definition pad2 (n : Z) : string :=
  String (digit (n / 10)) (String (digit n) "").

Definition pad3 (n : Z) : string := String (digit (n / 100)) (pad2 n).

Definition pad4 (n : Z) : string := String (digit (n / 1000)) (pad3 n).

(** Proleptic Gregorian calendar: the civil date of a day count from
    1970-01-01, and back. *)
Definition civil_from_days (z : Z) : Z * Z * Z :=
  let z := z + 719468 in
  let era := z / 146097 in
  let doe := z - era * 146097 in
  let yoe := (doe - doe / 1460 + doe / 36524 - doe / 146096) / 365 in
  let doy := doe - (365 * yoe + yoe / 4 - yoe / 100) in
  let mp := (5 * doy + 2) / 153 in
  let d := doy - (153 * mp + 2) / 5 + 1 in
  let m := if mp <? 10 then mp + 3 else mp - 9 in
  (yoe + era * 400 + (if m <=? 2 then 1 else 0), m, d).

Definition days_from_civil (y m d : Z) : Z :=
  let y := if m <=? 2 then y - 1 else y in
  let era := y / 400 in
  let yoe := y - era * 400 in
  let doy := (153 * (if 2 <? m then m - 3 else m + 9) + 2) / 5 + d - 1 in
  let doe := yoe * 365 + yoe / 4 - yoe / 100 + doy in
  era * 146097 + doe - 719468.

(** [YYYY-MM-DD] of an instant given in seconds since the epoch. *)
Definition date_text (secs : Z) : string :=
  let '(y, m, d) := civil_from_days (secs / 86400) in
  pad4 y ++ "-" ++ pad2 m ++ "-" ++ pad2 d.

(** [HH:MM:SS] of an instant given in seconds since the epoch. *)
Definition time_text (secs : Z) : string :=
  let s := secs mod 86400 in
  pad2 (s / 3600) ++ ":" ++ pad2 (s / 60 mod 60) ++ ":" ++ pad2 (s mod 60).

(** The text SQLite produces for an instant: [YYYY-MM-DD HH:MM:SS], in
    UTC, whole seconds. *)
Definition sqlite_datetime (secs : Z) : string :=
  date_text secs ++ String " " (time_text secs).

(** [new Date(ms).toISOString()]: [YYYY-MM-DDTHH:MM:SS.sssZ]. *)
Definition toISOString (ms : Z) : string :=
  date_text (ms / 1000) ++
  String "T" (time_text (ms / 1000) ++ "." ++ pad3 (ms mod 1000) ++ "Z").

Definition digit_val (c : ascii) : option Z :=
  let n := Z.of_N (N_of_ascii c) in
  if (48 <=? n) && (n <=? 57) then Some (n - 48) else None.

Fixpoint read_digits (acc : Z) (s : string) : option Z :=
  match s with
  | EmptyString => Some acc
  | String c rest =>
      match digit_val c with
      | Some v => read_digits (10 * acc + v) rest
      | None => None
      end
  end.

(** A non-empty run of decimal digits. *)
Definition number (s : string) : option Z :=
  match s with
  | EmptyString => None
  | _ => read_digits 0 s
  end.

(** What may follow the seconds in a time string SQLite accepts: nothing,
    a fraction, and a closing [Z]. *)
Definition zone_ok (s : string) : bool :=
  match s with
  | "" | "Z" => true
  | _ => false
  end.

Fixpoint fraction_ok (seen : bool) (s : string) : bool :=
  match s with
  | EmptyString => seen
  | String c rest =>
      match digit_val c with
      | Some _ => fraction_ok true rest
      | None => seen && zone_ok s
      end
  end.

Definition suffix_ok (s : string) : bool :=
  match s with
  | String "." rest => fraction_ok false rest
  | _ => zone_ok s
  end.

Definition in_range (lo hi : Z) (o : option Z) : option Z :=
  match o with
  | Some v => if (lo <=? v) && (v <=? hi) then Some v else None
  | None => None
  end.

(** SQLite's reading of a time string of the shape
    [YYYY-MM-DD HH:MM:SS] or [YYYY-MM-DDTHH:MM:SS[.fff][Z]], as whole
    seconds since the epoch (DATETIME renders whole seconds, and the
    modifiers used here shift by whole days). *)
Definition parse_datetime (s : string) : option Z :=
  let sep i c := String.eqb (substring i 1 s) c in
  match in_range 0 9999 (number (substring 0 4 s)),
        in_range 1 12 (number (substring 5 2 s)),
        in_range 1 31 (number (substring 8 2 s)),
        in_range 0 23 (number (substring 11 2 s)),
        in_range 0 59 (number (substring 14 2 s)),
        in_range 0 59 (number (substring 17 2 s)) with
  | Some y, Some mo, Some d, Some h, Some mi, Some sec =>
      if sep 4%nat "-" && sep 7%nat "-" &&
         (sep 10%nat " " || sep 10%nat "T") &&
         sep 13%nat ":" && sep 16%nat ":" &&
         suffix_ok (substring 19 (String.length s - 19) s)
      then Some (days_from_civil y mo d * 86400 + h * 3600 + mi * 60 + sec)
      else None
  | _, _, _, _, _, _ => None
  end.

(** [DATETIME(text, '+N days')] / [DATETIME(text, '-N days')]: NULL when
    the text is no time string. *)
Definition DATETIME (text : string) (days : Z) : sql_text :=
  match parse_datetime text with
  | Some secs => Some (sqlite_datetime (secs + days * 86400))
  | None => None
  end.

(** [randomBytes(n).toString('hex')]. *)
Definition hex_digit (n : N) : ascii :=
  if (n <? 10)%N then ascii_of_N (48 + n) else ascii_of_N (87 + n).

Fixpoint hex (bytes : list Byte.byte) : string :=
  match bytes with
  | [] => ""
  | b :: rest =>
      let n := Byte.to_N b in
      String (hex_digit (n / 16)) (String (hex_digit (n mod 16)) (hex rest))
  end.

(* ================================================================== *)
(** * The schema of [create_tables] *)
(* ================================================================== *)

(** [users]: [username TEXT PRIMARY KEY], [password TEXT NOT NULL],
    [is_admin BOOLEAN NOT NULL DEFAULT 0]. *)
Module User.
Record row := mk { username : string; password : string; is_admin : bool }.
End User.

(** [sessions]: [auth_token TEXT NOT NULL], [username TEXT NOT NULL],
    [last_active DATETIME DEFAULT CURRENT_TIMESTAMP], with
    [FOREIGN KEY (username) REFERENCES users(username) ON DELETE CASCADE]. *)
Module Session.
Record row :=
  mk { auth_token : string; username : string; last_active : sql_text }.
End Session.

(** [invites]: [invite_code TEXT],
    [expiration DATETIME DEFAULT (DATETIME(CURRENT_TIMESTAMP, '+7 days'))]. *)
Module Invite.
Record row := mk { invite_code : string; expiration : sql_text }.
End Invite.

(** [logs]: [message TEXT NOT NULL],
    [timestamp DATETIME DEFAULT CURRENT_TIMESTAMP]. *)
Module Log.
Record row := mk { message : string; timestamp : sql_text }.
End Log.

Record database := mkDatabase {
  users : list User.row;
  sessions : list Session.row;
  invites : list Invite.row;
  logs : list Log.row
}.

(** The process: the module variable [db] of [database.js] ([None] while
    it is unset) and the system clock, in milliseconds since the epoch. *)
Record world := mkWorld {
  db : option database;
  clock : Z
}.

Definition with_db (w : world) (d : database) : world :=
  {| db := Some d; clock := clock w |}.

(** The value of [CURRENT_TIMESTAMP] at clock reading [now]. *)
Definition CURRENT_TIMESTAMP (now : Z) : string := sqlite_datetime (now / 1000).

(* ================================================================== *)
(** * The statements the program prepares *)
(* ================================================================== *)

Inductive sqlite_error :=
  | UniqueConstraint        (* users.username is the primary key *)
  | ForeignKeyConstraint    (* sessions.username references users *)
  | NoSuchTable.            (* prepare on a file without the schema *)

(** Every text handed to [execute], with its bound parameters. *)
Inductive statement :=
  | InsertUser (username password : string)
      (* INSERT INTO users (username, password) VALUES (?, ?) *)
  | InsertUserFull (username password : string) (is_admin : bool)
      (* INSERT INTO users (username, password, is_admin) VALUES (?, ?, ?) *)
  | DeleteUser (username : string)
      (* DELETE FROM users WHERE username = ? *)
  | InsertSession (username auth_token : string)
      (* INSERT INTO sessions (username, auth_token) VALUES (?, ?) *)
  | TouchSession (auth_token : string)
      (* UPDATE sessions SET last_active = CURRENT_TIMESTAMP
         WHERE auth_token = ? *)
  | DeleteSession (auth_token : string)
      (* DELETE FROM sessions WHERE auth_token = ? *)
  | InsertInvite (invite_code : string)
      (* INSERT INTO invites (invite_code) VALUES (?) *)
  | DeleteInvite (invite_code : string)
      (* DELETE FROM invites WHERE invite_code = ? *)
  | DeleteInvitesBefore (current_time : string)
      (* DELETE FROM invites WHERE expiration < ? *)
  | DeleteSessionsBefore (current_time : string)
      (* DELETE FROM sessions WHERE last_active < DATETIME(?, '-30 days') *)
  | DeleteLogsBefore (current_time : string)
      (* DELETE FROM logs WHERE timestamp < DATETIME(?, '-30 days') *)
  | InsertLog (message : string).
      (* INSERT INTO logs (message) VALUES (?) *)

Definition has_user (u : string) (d : database) : bool :=
  existsb (fun r => String.eqb (User.username r) u) (users d).

Definition insert_user (r : User.row) (d : database)
  : database + sqlite_error :=
  if has_user (User.username r) d then inr UniqueConstraint
  else inl {| users := users d ++ [r]; sessions := sessions d;
              invites := invites d; logs := logs d |}.

Definition touch (now : Z) (t : string) (r : Session.row) : Session.row :=
  if String.eqb (Session.auth_token r) t
  then {| Session.auth_token := Session.auth_token r;
          Session.username := Session.username r;
          Session.last_active := Some (CURRENT_TIMESTAMP now) |}
  else r.

(** [db.prepare(query).run(params)] at clock reading [now].  Foreign keys
    are enforced (the driver's SQLite build turns them on for every
    connection), so deleting a user deletes the sessions that reference
    it and a session can only be inserted for an existing user. *)
Definition run (q : statement) (now : Z) (d : database)
  : database + sqlite_error :=
  match q with
  | InsertUser u p => insert_user (User.mk u p false) d
  | InsertUserFull u p a => insert_user (User.mk u p a) d
  | DeleteUser u =>
      inl {| users :=
               filter (fun r => negb (String.eqb (User.username r) u)) (users d);
             sessions :=
               (* ON DELETE CASCADE fires for each user row deleted *)
               if has_user u d
               then filter (fun r => negb (String.eqb (Session.username r) u))
                           (sessions d)
               else sessions d;
             invites := invites d; logs := logs d |}
  | InsertSession u t =>
      if has_user u d
      then inl {| users := users d;
                  sessions :=
                    sessions d ++ [Session.mk t u (Some (CURRENT_TIMESTAMP now))];
                  invites := invites d; logs := logs d |}
      else inr ForeignKeyConstraint
  | TouchSession t =>
      inl {| users := users d; sessions := map (touch now t) (sessions d);
             invites := invites d; logs := logs d |}
  | DeleteSession t =>
      inl {| users := users d;
             sessions :=
               filter (fun r => negb (String.eqb (Session.auth_token r) t))
                      (sessions d);
             invites := invites d; logs := logs d |}
  | InsertInvite c =>
      inl {| users := users d; sessions := sessions d;
             invites :=
               invites d ++ [Invite.mk c (DATETIME (CURRENT_TIMESTAMP now) 7)];
             logs := logs d |}
  | DeleteInvite c =>
      inl {| users := users d; sessions := sessions d;
             invites :=
               filter (fun r => negb (String.eqb (Invite.invite_code r) c))
                      (invites d);
             logs := logs d |}
  | DeleteInvitesBefore current_time =>
      inl {| users := users d; sessions := sessions d;
             invites :=
               filter (fun r => negb (sql_lt (Invite.expiration r)
                                             (Some current_time)))
                      (invites d);
             logs := logs d |}
  | DeleteSessionsBefore current_time =>
      inl {| users := users d;
             sessions :=
               filter (fun r => negb (sql_lt (Session.last_active r)
                                             (DATETIME current_time (-30))))
                      (sessions d);
             invites := invites d; logs := logs d |}
  | DeleteLogsBefore current_time =>
      inl {| users := users d; sessions := sessions d; invites := invites d;
             logs :=
               filter (fun r => negb (sql_lt (Log.timestamp r)
                                             (DATETIME current_time (-30))))
                      (logs d) |}
  | InsertLog m =>
      inl {| users := users d; sessions := sessions d; invites := invites d;
             logs := logs d ++ [Log.mk m (Some (CURRENT_TIMESTAMP now))] |}
  end.

(** Every text handed to [get_row]; the index is the type of the row the
    query yields. *)
Inductive query : Type -> Type :=
  | UserByName (username : string) : query User.row
      (* SELECT * FROM users WHERE username = ? *)
  | SessionByToken (auth_token : string) : query Session.row
      (* SELECT * FROM sessions WHERE auth_token = ?   and
         SELECT username FROM sessions WHERE auth_token = ? *)
  | InviteByCode (invite_code : string) : query Invite.row.
      (* SELECT * FROM invites WHERE invite_code = ? *)

(** [db.prepare(query).get(params)]: the first matching row, if any. *)
Definition select {R} (q : query R) (d : database) : option R :=
  match q in query R return option R with
  | UserByName u =>
      find (fun r => String.eqb (User.username r) u) (users d)
  | SessionByToken t =>
      find (fun r => String.eqb (Session.auth_token r) t) (sessions d)
  | InviteByCode c =>
      find (fun r => String.eqb (Invite.invite_code r) c) (invites d)
  end.

(* ================================================================== *)
(** * JavaScript control flow: state, return values and exceptions *)
(* ================================================================== *)

Inductive exn :=
  | TypeError                     (* property read on null or undefined *)
  | SqliteError (e : sqlite_error)
  | CannotOpen.                   (* new Database(path) failed *)

Inductive outcome (A : Type) :=
  | Returned (a : A)
  | Threw (e : exn).
Arguments Returned {A} a.
Arguments Threw {A} e.

(** A computation runs in a world and leaves a world, also when it
    throws. *)
Definition js (A : Type) : Type := world -> outcome A * world.

Definition ret {A} (a : A) : js A := fun w => (Returned a, w).

Definition throw {A} (e : exn) : js A := fun w => (Threw e, w).

Definition bind {A B} (c : js A) (k : A -> js B) : js B :=
  fun w =>
    match c w with
    | (Returned a, w') => k a w'
    | (Threw e, w') => (Threw e, w')
    end.

(** [try { body } catch { handler }]. *)
Definition try_catch {A} (body handler : js A) : js A :=
  fun w =>
    match body w with
    | (Returned a, w') => (Returned a, w')
    | (Threw _, w') => handler w'
    end.

Declare Scope js_scope.
Delimit Scope js_scope with js.
Notation "x <- c ;; k" := (bind c (fun x => k))
  (at level 61, c at next level, right associativity) : js_scope.
Notation "c ;; k" := (bind c (fun _ => k))
  (at level 61, right associativity) : js_scope.
Local Open Scope js_scope.

(** What [get_row] hands back: a row object, [null] (no row matched) or
    [undefined] (the function fell off its end because [db] is unset). *)
Inductive fetched (R : Type) :=
  | Row (r : R)
  | Null
  | Undefined.
Arguments Row {R} r.
Arguments Null {R}.
Arguments Undefined {R}.

(** [x != null]: false for [null] and for [undefined]. *)
Definition not_null {R} (x : fetched R) : bool :=
  match x with Row _ => true | _ => false end.

(** [if (x)], for [x] a row object, [null] or [undefined]. *)
Definition truthy {R} (x : fetched R) : bool :=
  match x with Row _ => true | _ => false end.

(** [x.column]: a TypeError when [x] is [null] or [undefined]. *)
Definition prop {R A} (x : fetched R) (column : R -> A) : js A :=
  match x with
  | Row r => ret (column r)
  | _ => throw TypeError
  end.

(* ================================================================== *)
(** * [database.js] *)
(* ================================================================== *)

Definition execute (q : statement) : js unit :=
  fun w =>
    match db w with
    | Some d =>
        match run q (clock w) d with
        | inl d' => (Returned tt, with_db w d')
        | inr e => (Threw (SqliteError e), w)
        end
    | None => (Returned tt, w)
    end.

Definition get_row {R} (q : query R) : js (fetched R) :=
  fun w =>
    match db w with
    | Some d =>
        (Returned (match select q d with Some r => Row r | None => Null end), w)
    | None => (Returned Undefined, w)
    end.

(** [new Date().toISOString()]. *)
Definition current_time_iso : js string :=
  fun w => (Returned (toISOString (clock w)), w).

Definition clean_database : js unit :=
  current_time <- current_time_iso ;;
  execute (DeleteInvitesBefore current_time) ;;
  execute (DeleteSessionsBefore current_time) ;;
  execute (DeleteLogsBefore current_time).

(** [message] is a string, or [None] for [null] / [undefined]. *)
Definition log (message : option string) : js unit :=
  match message with
  | Some m => execute (InsertLog m)
  | None => ret tt
  end.

Definition create_tables : database :=
  {| users := []; sessions := []; invites := []; logs := [] |}.

Definition create_admin_account : js unit :=
  execute (InsertUserFull "admin" "DEFAULT PASSWORD HASH" true).

(** [open_database()]: [on_disk] is what [new Database(database_path)]
    finds; [None] when the file does not exist yet, [Some (inl d)] for an
    existing file that holds the four tables with content [d],
    [Some (inr _)] when opening throws.  An existing file without the
    tables (empty, or not written by this program) also opens and makes
    the function return true, but the handle it leaves has no table to
    run a statement on, which a [world] cannot hold: that start is
    followed in [on_listen]. *)
Definition open_database (on_disk : option (database + unit)) : js bool :=
  try_catch
    (match on_disk with
     | None =>
         (fun w => (Returned tt, with_db w create_tables)) ;;
         create_admin_account ;;
         ret true
     | Some (inl d) => (fun w => (Returned tt, with_db w d)) ;; ret true
     | Some (inr _) => throw CannotOpen
     end)
    (ret false).

(* ================================================================== *)
(** * [validation.js] *)
(* ================================================================== *)

Definition alphanumeric_char (c : ascii) : bool :=
  let n := N_of_ascii c in
  ((48 <=? n) && (n <=? 57) || (65 <=? n) && (n <=? 90)
   || (97 <=? n) && (n <=? 122))%N.

Fixpoint all_chars (p : ascii -> bool) (s : string) : bool :=
  match s with
  | EmptyString => true
  | String c rest => p c && all_chars p rest
  end.

(** [/^[a-z0-9]+$/i.test(string)]. *)
Definition is_alphanumeric (s : string) : bool :=
  match s with
  | EmptyString => false
  | _ => all_chars alphanumeric_char s
  end.

Definition is_between_lengths (s : string) (min max : nat) : bool :=
  (min <=? String.length s)%nat && (String.length s <=? max)%nat.

(* ================================================================== *)
(** * [auth.js] *)
(* ================================================================== *)

Section Auth.

(** bcrypt is outside the repository: [hashSync password rounds salt]
    is the hash under a freshly drawn salt, [compareSync password hash]
    its check. *)
Variable hashSync : string -> Z -> list Byte.byte -> string.
Variable compareSync : string -> string -> bool.

Definition check_username (username : string) : js bool :=
  r <- get_row (UserByName username) ;;
  ret (not_null r).

Definition check_password (username password : string) : js bool :=
  user_info <- get_row (UserByName username) ;;
  stored <- prop user_info User.password ;;
  if negb (compareSync password stored) then ret false else ret true.

Definition get_username (auth_token : string) : js string :=
  r <- get_row (SessionByToken auth_token) ;;
  prop r Session.username.

Definition check_admin (username : string) : js bool :=
  r <- get_row (UserByName username) ;;
  prop r User.is_admin.

Definition check_invite_code (invite_code : string) : js bool :=
  r <- get_row (InviteByCode invite_code) ;;
  ret (not_null r).

(** [salt] is the randomness [hashSync] draws. *)
Definition create_user (salt : list Byte.byte)
    (username password invite_code : string) : js unit :=
  let password_hash := hashSync password 12 salt in
  execute (DeleteInvite invite_code) ;;
  execute (InsertUser username password_hash) ;;
  log (Some ("Created new user '" ++ username ++ "', used invite code '"
             ++ invite_code ++ "'.")).

Definition delete_user (username : string) : js unit :=
  execute (DeleteUser username) ;;
  log (Some ("Deleted user '" ++ username ++ "'.")).

(** [drawn] is the result of [randomBytes(32)]. *)
Definition create_session (drawn : list Byte.byte) (username : string)
  : js string :=
  let auth_token := hex drawn in
  execute (InsertSession username auth_token) ;;
  log (Some ("Created new session for '" ++ username ++ "'.")) ;;
  ret auth_token.

(** The result is the username, or [None] for [null]. *)
Definition check_session (auth_token : string) : js (option string) :=
  session_info <- get_row (SessionByToken auth_token) ;;
  if truthy session_info then
    execute (TouchSession auth_token) ;;
    username <- prop session_info Session.username ;;
    ret (Some username)
  else ret None.

Definition delete_session (auth_token : string) : js unit :=
  username <- get_username auth_token ;;
  execute (DeleteSession auth_token) ;;
  log (Some ("Deleted session for '" ++ username ++ "'.")).

(** [drawn] is the result of [randomBytes(3)]. *)
Definition create_invite_code (drawn : list Byte.byte) : js string :=
  let invite_code := hex drawn in
  execute (InsertInvite invite_code) ;;
  log (Some ("Created new invite code '" ++ invite_code ++ "'.")) ;;
  ret invite_code.

(* ================================================================ *)
(** * [api.js] *)
(* ================================================================ *)

Record response := mkResponse {
  status : Z;
  message : string;
  data : list (string * string)
}.

Definition response_message (st : Z) (msg : string)
    (extra : list (string * string)) : response :=
  {| status := st; message := msg; data := extra |}.

Definition invalid_request_error : response :=
  response_message 400 "Invalid request format." [].

Definition server_error : response :=
  response_message 500 "Internal server error." [].

(** A request body whose fields are text: each of the four fields is a
    JSON string, or [None] when it is missing.  The handlers only test a
    field with [if (!field)] before using it, so a field holding another
    JSON value is not followed here: [null], [false] and [0] are refused
    like a missing field, while a number, [true], an array or an object
    goes on into bcrypt, the regular expression or the SQLite binder.
    Everything stated about a route below is about requests of this
    record. *)
Record body := mkBody {
  req_username : option string;
  req_password : option string;
  req_invite_code : option string;
  req_auth_token : option string
}.

(** A field that passes [if (!field)]: present and not the empty
    string. *)
Definition given (field : option string) : option string :=
  match field with
  | Some "" => None
  | other => other
  end.

(** The [auth] middleware; [next] is the rest of the route, run with
    [req.auth.username]. *)
Definition auth (b : body) (next : string -> js response) : js response :=
  try_catch
    (match given (req_auth_token b) with
     | None => ret invalid_request_error
     | Some auth_token =>
         username <- check_session auth_token ;;
         match given username with
         | None => ret (response_message 401 "Invalid authentication token." [])
         | Some username => next username
         end
     end)
    (ret server_error).

(** The [admin] middleware. *)
Definition admin (username : string) (next : js response) : js response :=
  try_catch
    (is_admin <- check_admin username ;;
     if negb is_admin
     then ret (response_message 403 "Insufficient permissions." [])
     else next)
    (ret server_error).

(** [POST /signin]; [drawn] feeds [create_session]. *)
Definition signin (drawn : list Byte.byte) (b : body) : js response :=
  try_catch
    (match given (req_username b), given (req_password b) with
     | Some username, Some password =>
         known <- check_username username ;;
         if negb known
         then ret (response_message 404 "Username does not exist." [])
         else
           matches <- check_password username password ;;
           if negb matches
           then ret (response_message 401 "Incorrect password." [])
           else
             auth_token <- create_session drawn username ;;
             ret (response_message 200 "Signed in successfully."
                    [("auth_token", auth_token)])
     | _, _ => ret invalid_request_error
     end)
    (ret server_error).

(** [POST /signup]; [salt] feeds [create_user], [drawn]
    [create_session]. *)
Definition signup (salt drawn : list Byte.byte) (b : body) : js response :=
  try_catch
    (match given (req_username b), given (req_password b),
           given (req_invite_code b) with
     | Some username, Some password, Some invite_code =>
         if negb (is_alphanumeric username)
            || negb (is_between_lengths username 1 32)
         then ret (response_message 400
                "Username must be alphanumeric with a maximum length of 32 characters."
                [])
         else
           taken <- check_username username ;;
           if taken
           then ret (response_message 400 "Username already exists." [])
           else
             valid <- check_invite_code invite_code ;;
             if negb valid
             then ret (response_message 400 "Invalid invite code." [])
             else
               create_user salt username password invite_code ;;
               auth_token <- create_session drawn username ;;
               ret (response_message 200 "Signed up successfully."
                      [("auth_token", auth_token)])
     | _, _, _ => ret invalid_request_error
     end)
    (ret server_error).

(** [POST /signout], behind [auth]. *)
Definition signout (b : body) : js response :=
  auth b (fun _ =>
    try_catch
      (match req_auth_token b with
       | Some auth_token =>
           delete_session auth_token ;;
           ret (response_message 200 "Signed out successfully." [])
       | None => throw TypeError
       end)
      (ret server_error)).

(** [POST /create-invite-code], behind [auth] and [admin]. *)
Definition create_invite_code_route (drawn : list Byte.byte) (b : body)
  : js response :=
  auth b (fun username =>
    admin username
      (try_catch
         (invite_code <- create_invite_code drawn ;;
          ret (response_message 200 "Created invite code successfully."
                 [("invite_code", invite_code)]))
         (ret server_error))).

(** [POST /delete-user], behind [auth] and [admin]. *)
Definition delete_user_route (b : body) : js response :=
  auth b (fun acting =>
    admin acting
      (try_catch
         (match given (req_username b) with
          | None => ret invalid_request_error
          | Some username =>
              if String.eqb username "admin"
              then ret (response_message 403 "Cannot delete admin account." [])
              else
                known <- check_username username ;;
                if negb known
                then ret (response_message 404 "User does not exist." [])
                else
                  delete_user username ;;
                  ret (response_message 200 "Deleted user successfully." [])
          end)
         (ret server_error))).

End Auth.

(* ================================================================== *)
(** * Vocabulary of the specification *)
(* ================================================================== *)

(** The session row [validate] resolves a token to, if any. *)
Definition session_for (t : string) (w : world) : option Session.row :=
  match db w with
  | Some d => select (SessionByToken t) d
  | None => None
  end.

Definition has_session (t : string) (w : world) : bool :=
  match db w with
  | Some d => existsb (fun r => String.eqb (Session.auth_token r) t) (sessions d)
  | None => false
  end.

Definition has_invite (c : string) (w : world) : bool :=
  match db w with
  | Some d => existsb (fun r => String.eqb (Invite.invite_code r) c) (invites d)
  | None => false
  end.

(** An invite's expiration has passed at clock reading [now]: its
    expiration lies before [CURRENT_TIMESTAMP], both in SQLite's own
    rendering, where text order is time order. *)
Definition expired (now : Z) (r : Invite.row) : bool :=
  sql_lt (Invite.expiration r) (Some (CURRENT_TIMESTAMP now)).

(** A live invite for [c]: a row with that code whose expiration has not
    passed. *)
Definition live_invite (c : string) (w : world) : bool :=
  match db w with
  | Some d =>
      existsb (fun r => String.eqb (Invite.invite_code r) c
                        && negb (expired (clock w) r)) (invites d)
  | None => false
  end.

(** The world a computation leaves, and the clock moving on. *)
Definition after {A} (c : js A) (w : world) : world := snd (c w).

Definition at_clock (now : Z) (w : world) : world :=
  {| db := db w; clock := now |}.

(* ================================================================== *)
(** * Concrete scenarios *)
(* ================================================================== *)

(** A transparent stand-in for bcrypt, for running scenarios. *)
Definition demo_hashSync (password : string) (rounds : Z)
    (salt : list Byte.byte) : string :=
  "hash(" ++ password ++ ")".

Definition demo_compareSync (password hash : string) : bool :=
  String.eqb hash ("hash(" ++ password ++ ")").

Definition no_fields : body :=
  {| req_username := None; req_password := None;
     req_invite_code := None; req_auth_token := None |}.

Definition signup_body (u p c : string) : body :=
  {| req_username := Some u; req_password := Some p;
     req_invite_code := Some c; req_auth_token := None |}.

Definition signin_body (u p : string) : body :=
  {| req_username := Some u; req_password := Some p;
     req_invite_code := None; req_auth_token := None |}.

(** First start, 2026-10-26 08:00:00 UTC: tables created, admin seeded. *)
Definition first_start : world :=
  after (open_database None) {| db := None; clock := 1793001600000 |}.

Definition token_bytes : list Byte.byte :=
  repeat Byte.x5a 32.

(** alice signs up with invite [ab12cd] the moment it is issued. *)
Definition invite_issued : world :=
  after (create_invite_code [Byte.xab; Byte.x12; Byte.xcd]) first_start.

Definition alice_signed_up : world :=
  after (signup demo_hashSync [] token_bytes
           (signup_body "alice" "s3cret" "ab12cd")) invite_issued.

(** The invite of 2026-10-26 08:00:00 is left unused; the daily sweep
    runs at noon, last on 2026-11-01; a sign-up arrives on 2026-11-02 at
    09:00:00, an hour after the expiration. *)
Definition swept_on_eve : world :=
  after clean_database (at_clock 1793534400000 invite_issued).

Definition hour_after_expiry : world := at_clock 1793610000000 swept_on_eve.

(** An invite issued on 2026-10-26 at 23:00:00, and the sweep of
    2026-11-02 at 08:00:00, fifteen hours before it expires. *)
Definition late_invite_issued : world :=
  after (create_invite_code [Byte.xab; Byte.x12; Byte.xcd])
        (at_clock 1793055600000 first_start).

Definition morning_of_expiry : world :=
  at_clock 1793606400000 late_invite_issued.

(** The housekeeping scenario: a session last active 31 days ago, an
    invite expired a minute ago, a log entry 40 days old, next to fresh
    records of each kind; the clock reads 2026-11-02 08:00:00. *)
Definition housekeeping_scenario : world :=
  {| db := Some
       {| users := [User.mk "admin" "DEFAULT PASSWORD HASH" true;
                    User.mk "alice" "hash(s3cret)" false];
          sessions := [Session.mk "stale" "alice" (Some "2026-10-02 08:00:00");
                       Session.mk "fresh" "alice" (Some "2026-11-01 20:00:00")];
          invites := [Invite.mk "0ld0ld" (Some "2026-11-02 07:59:00");
                      Invite.mk "f2e5h0" (Some "2026-11-08 10:00:00")];
          logs := [Log.mk "forty days old" (Some "2026-09-23 08:00:00");
                   Log.mk "yesterday" (Some "2026-11-01 08:00:00")] |};
     clock := 1793606400000 |}.

(* ================================================================== *)
(** * The rest of [database.js], the router and the entry point *)
(* ================================================================== *)

(** [db.prepare(query).all(params)]: every matching row, in rowid
    order. *)
Definition select_all {R} (q : query R) (d : database) : list R :=
  match q in query R return list R with
  | UserByName u =>
      filter (fun r => String.eqb (User.username r) u) (users d)
  | SessionByToken t =>
      filter (fun r => String.eqb (Session.auth_token r) t) (sessions d)
  | InviteByCode c =>
      filter (fun r => String.eqb (Invite.invite_code r) c) (invites d)
  end.

(** [get_rows]: the array of matches ([|| null] never fires, an array
    being truthy), or [undefined] while [db] is unset. *)
Definition get_rows {R} (q : query R) : js (fetched (list R)) :=
  fun w =>
    match db w with
    | Some d => (Returned (Row (select_all q d)), w)
    | None => (Returned Undefined, w)
    end.

(** The five paths registered on [backend]. *)
Inductive route :=
  | Signin            (* POST /signin *)
  | Signup            (* POST /signup *)
  | Signout           (* POST /signout *)
  | CreateInviteCode  (* POST /create-invite-code *)
  | DeleteUserRoute.  (* POST /delete-user *)

(** One request served: [salt] and [drawn] are the random bytes the
    handler may draw. *)
Definition backend
    (hashSync : string -> Z -> list Byte.byte -> string)
    (compareSync : string -> string -> bool)
    (r : route) (salt drawn : list Byte.byte) (b : body) : js response :=
  match r with
  | Signin => signin compareSync drawn b
  | Signup => signup hashSync salt drawn b
  | Signout => signout b
  | CreateInviteCode => create_invite_code_route drawn b
  | DeleteUserRoute => delete_user_route b
  end.




(* ================================================================== *)
(** * Properties of states and of state changes *)
(* ================================================================== *)

Definition user_exists (u : string) (w : world) : bool :=
  match db w with
  | Some d => has_user u d
  | None => false
  end.

Fixpoint distinct (names : list string) : bool :=
  match names with
  | [] => true
  | n :: rest => negb (existsb (String.eqb n) rest) && distinct rest
  end.

(** The two constraints of the schema: [username] is a key of [users],
    and every session belongs to a user. *)
Definition consistent (d : database) : bool :=
  distinct (map User.username (users d))
  && forallb (fun r => has_user (Session.username r) d) (sessions d).

Definition consistent_world (w : world) : bool :=
  match db w with
  | Some d => consistent d
  | None => true
  end.

Definition audit_trail (w : world) : list Log.row :=
  match db w with
  | Some d => logs d
  | None => []
  end.

Definition admins (w : world) : list User.row :=
  match db w with
  | Some d => filter User.is_admin (users d)
  | None => []
  end.

(** A computation keeps a relation between the world it starts in and
    the world it leaves, whether it returns or throws. *)
Definition keeps {A} (rel : world -> world -> Prop) (c : js A) : Prop :=
  forall w, rel w (after c w).

Definition stays_consistent (w w' : world) : Prop :=
  consistent_world w = true -> consistent_world w' = true.

Definition trail_extended (w w' : world) : Prop :=
  exists added, audit_trail w' = (audit_trail w ++ added)%list.

Definition no_admin_made (w w' : world) : Prop :=
  forall r, In r (admins w') -> In r (admins w).

Definition admin_account_kept (w w' : world) : Prop :=
  user_exists "admin" w = true -> user_exists "admin" w' = true.

(** The statements a route may hand to [execute]: none of the sweep,
    no insertion with an explicit [is_admin], no deletion of the user
    named [admin]. *)
Definition route_statement (q : statement) : bool :=
  match q with
  | InsertUserFull _ _ _ => false
  | DeleteUser u => negb (String.eqb u "admin")
  | DeleteInvitesBefore _ | DeleteSessionsBefore _ | DeleteLogsBefore _ => false
  | _ => true
  end.

(** A row of each table being present, for the frame properties. *)
Definition sessions_of (w : world) : list Session.row :=
  match db w with Some d => sessions d | None => [] end.

Definition users_of (w : world) : list User.row :=
  match db w with Some d => users d | None => [] end.

Definition invites_of (w : world) : list Invite.row :=
  match db w with Some d => invites d | None => [] end.

Definition hex_char (c : ascii) : bool :=
  let n := N_of_ascii c in
  ((48 <=? n) && (n <=? 57) || (97 <=? n) && (n <=? 102))%N.

(** Reading a hex text back, to tell tokens apart by the bytes drawn. *)
Definition hex_value (c : ascii) : N :=
  let n := N_of_ascii c in
  if (n <? 58)%N then (n - 48)%N else (n - 87)%N.

Fixpoint unhex (s : string) : option (list Byte.byte) :=
  match s with
  | EmptyString => Some []
  | String hi (String lo rest) =>
      match Byte.of_N (16 * hex_value hi + hex_value lo), unhex rest with
      | Some b, Some bytes => Some (b :: bytes)
      | _, _ => None
      end
  | String _ EmptyString => None
  end.

(* ================================================================== *)
(** * Renderings, checked on samples *)
(* ================================================================== *)

Example sqlite_datetime_sample :
  sqlite_datetime 1793606400 = "2026-11-02 08:00:00".
Proof. reflexivity. Qed.

Example toISOString_sample :
  toISOString 1793606400123 = "2026-11-02T08:00:00.123Z".
Proof. reflexivity. Qed.

Example DATETIME_sample :
  DATETIME "2026-11-02T08:00:00.123Z" (-30) = Some "2026-10-03 08:00:00"
  /\ DATETIME "2026-11-02 08:00:00" 7 = Some "2026-11-09 08:00:00"
  /\ DATETIME "yesterday" 7 = None.
Proof. repeat split. Qed.

Example hex_sample : hex [Byte.xab; Byte.x12; Byte.xcd] = "ab12cd".
Proof. reflexivity. Qed.

(* ================================================================== *)
(** * Lists of rows: lookups and deletions *)
(* ================================================================== *)

(** The renderings stay folded while the control flow is simplified. *)
Arguments CURRENT_TIMESTAMP : simpl never.
Arguments DATETIME : simpl never.
Arguments toISOString : simpl never.
Arguments sqlite_datetime : simpl never.
Arguments text_lt : simpl never.

Section Rows.

Context {R : Type}.
Variable p : R -> bool.

Lemma existsb_find (l : list R) :
  existsb p l = match find p l with Some _ => true | None => false end.
Proof.
  induction l as [|r l IH]; simpl; [reflexivity|].
  destruct (p r); simpl; [reflexivity | exact IH].
Qed.

Lemma find_none_existsb (l : list R) : existsb p l = false -> find p l = None.
Proof.
  rewrite existsb_find. destruct (find p l); [discriminate | reflexivity].
Qed.

Lemma find_absent (l : list R) :
  (forall r, In r l -> p r = false) -> find p l = None.
Proof.
  induction l as [|r l IH]; simpl; intros H; [reflexivity|].
  rewrite (H r (or_introl eq_refl)). apply IH. intros x Hx. apply H. now right.
Qed.

Lemma existsb_absent (l : list R) :
  (forall r, In r l -> p r = false) -> existsb p l = false.
Proof.
  intros H. rewrite existsb_find, (find_absent l H). reflexivity.
Qed.

(** Deleting the rows that match leaves none that match. *)
Lemma existsb_deleted (l : list R) :
  existsb p (filter (fun r => negb (p r)) l) = false.
Proof.
  apply existsb_absent. intros r Hr. apply filter_In in Hr.
  destruct Hr as [_ Hr]. now destruct (p r).
Qed.

Lemma existsb_app_one (l : list R) (r : R) :
  existsb p (l ++ [r]) = existsb p l || p r.
Proof. rewrite existsb_app. simpl. now rewrite orb_false_r. Qed.

End Rows.

Lemma execute_open (q : statement) (w : world) (d : database) :
  db w = Some d ->
  execute q w = match run q (clock w) d with
                | inl d' => (Returned tt, with_db w d')
                | inr e => (Threw (SqliteError e), w)
                end.
Proof. intros Hdb. unfold execute. now rewrite Hdb. Qed.

Lemma execute_closed (q : statement) (w : world) :
  db w = None -> execute q w = (Returned tt, w).
Proof. intros Hdb. unfold execute. now rewrite Hdb. Qed.

Lemma select_user_absent (u : string) (d : database) :
  has_user u d = false -> select (UserByName u) d = None.
Proof. apply find_none_existsb. Qed.

Lemma select_user_present (u : string) (d : database) :
  has_user u d = true -> exists r, select (UserByName u) d = Some r.
Proof.
  unfold has_user. rewrite existsb_find. simpl.
  destruct (find _ (users d)) as [r|]; [now exists r | discriminate].
Qed.

(** Every route answers: the outer [try_catch] turns a throw into a 500. *)
Lemma try_catch_returns {A} (c : js A) (a : A) (w : world) :
  exists r w', try_catch c (ret a) w = (Returned r, w').
Proof.
  unfold try_catch, ret. destruct (c w) as [[r|e] w']; eauto.
Qed.

(* ================================================================== *)
(** * Sessions: [check_session] and [delete_session] *)
(* ================================================================== *)

Lemma check_session_unresolved (t : string) (w : world) :
  session_for t w = None -> check_session t w = (Returned None, w).
Proof.
  unfold session_for, check_session, bind, get_row.
  destruct (db w) as [d|]; [|reflexivity].
  intros ->. reflexivity.
Qed.

(** C9.  When no session row carries the token, [check_session] returns
    null and leaves the whole world as it found it: no [last_active]
    update, no log entry, no change to any table. *)
Theorem check_session_unknown_token_frame (t : string) (w : world) :
  (forall d r, db w = Some d -> In r (sessions d) ->
               Session.auth_token r <> t) ->
  check_session t w = (Returned None, w).
Proof.
  intros Hnone. apply check_session_unresolved. unfold session_for.
  destruct (db w) as [d|] eqn:Hdb; [|reflexivity].
  apply find_absent. intros r Hr. apply String.eqb_neq. now apply (Hnone d).
Qed.

Lemma check_session_unknown_token_frame_witness :
  check_session "0000" alice_signed_up = (Returned None, alice_signed_up).
Proof.
  apply check_session_unknown_token_frame.
  intros d r Hdb Hr. vm_compute in Hdb. injection Hdb as <-.
  simpl in Hr. destruct Hr as [<-|[]]. vm_compute. discriminate.
Defined.

Lemma touch_token (now : Z) (t : string) (s : Session.row) :
  Session.auth_token (touch now t s) = Session.auth_token s.
Proof. unfold touch. now destruct (String.eqb (Session.auth_token s) t). Qed.

Lemma find_touch (now : Z) (t : string) (l : list Session.row) :
  find (fun r => String.eqb (Session.auth_token r) t) (map (touch now t) l)
  = option_map (touch now t)
      (find (fun r => String.eqb (Session.auth_token r) t) l).
Proof.
  induction l as [|s l IH]; [reflexivity|].
  cbn [map find]. rewrite touch_token, IH.
  now destruct (String.eqb (Session.auth_token s) t).
Qed.

Lemma has_session_find (t : string) (w : world) :
  has_session t w = match session_for t w with Some _ => true | None => false end.
Proof.
  unfold has_session, session_for. destruct (db w); [|reflexivity].
  apply existsb_find.
Qed.

(** The first row of a table that matches, with the rows before it. *)
Lemma first_match {R} (p : R -> bool) (l : list R) :
  existsb p l = true ->
  exists before r rest,
    l = (before ++ r :: rest)%list
    /\ p r = true
    /\ (forall x, In x before -> p x = false)
    /\ find p l = Some r.
Proof.
  induction l as [|x l IH]; cbn; [discriminate|].
  destruct (p x) eqn:Hx.
  - intros _. exists [], x, l. repeat split; [exact Hx | intros y []].
  - cbn. intros Hl. destruct (IH Hl) as (before & r & rest & -> & Hr & Hb & Hf).
    exists (x :: before), r, rest. repeat split; [exact Hr | | exact Hf].
    intros y [<-|Hy]; [exact Hx | now apply Hb].
Qed.

(** C6.  When some row of [sessions] carries the token [t], let [s] be
    the first such row.  [check_session t] returns the username of [s];
    the only change to the world is that every row carrying [t] has
    [last_active] set to the current timestamp, rows of other tokens,
    users, invites and logs being left alone; [t] resolves to the
    refreshed row afterwards.  When no row carries [t] (or no database is
    open) the result is null. *)
Theorem check_session_validates (t : string) (w : world) :
  if has_session t w
  then
    exists d before s rest d',
      db w = Some d
      /\ sessions d = (before ++ s :: rest)%list
      /\ Session.auth_token s = t
      /\ (forall r, In r before -> Session.auth_token r <> t)
      /\ check_session t w = (Returned (Some (Session.username s)), with_db w d')
      /\ users d' = users d /\ invites d' = invites d /\ logs d' = logs d
      /\ sessions d' = map (touch (clock w) t) (sessions d)
      /\ (forall r, In r (sessions d') -> Session.auth_token r = t ->
            Session.last_active r = Some (CURRENT_TIMESTAMP (clock w)))
      /\ (forall r, In r (sessions d) -> Session.auth_token r = t ->
            In (Session.mk t (Session.username r)
                           (Some (CURRENT_TIMESTAMP (clock w))))
               (sessions d'))
      /\ (forall r, In r (sessions d) -> Session.auth_token r <> t ->
            In r (sessions d'))
      /\ session_for t (with_db w d')
         = Some (Session.mk t (Session.username s)
                            (Some (CURRENT_TIMESTAMP (clock w))))
  else check_session t w = (Returned None, w).
Proof.
  unfold has_session. destruct (db w) as [d|] eqn:Hdb.
  - destruct (existsb _ (sessions d)) eqn:Hex.
    + destruct (first_match _ _ Hex) as (before & s & rest & Hl & Hs & Hb & Hfind).
      apply String.eqb_eq in Hs.
      exists d, before, s, rest.
      exists {| users := users d;
                sessions := map (touch (clock w) t) (sessions d);
                invites := invites d; logs := logs d |}.
      split; [reflexivity|]. split; [exact Hl|]. split; [exact Hs|].
      split. { intros r Hr. apply String.eqb_neq. now apply Hb. }
      split.
      { unfold check_session, bind, get_row. rewrite Hdb.
        cbn [select]. rewrite Hfind. cbn [truthy].
        now rewrite (execute_open _ w d Hdb). }
      repeat (split; [reflexivity|]).
      split; [|split; [|split]].
      * intros r Hr Ht. apply in_map_iff in Hr. destruct Hr as [r0 [<- _]].
        unfold touch in *.
        destruct (String.eqb (Session.auth_token r0) t) eqn:E; [reflexivity|].
        apply String.eqb_neq in E. contradiction.
      * intros r Hr Ht. apply in_map_iff. exists r. split; [|exact Hr].
        unfold touch. rewrite <- Ht at 1. rewrite String.eqb_refl.
        now rewrite Ht.
      * intros r Hr Ht. apply in_map_iff. exists r. split; [|exact Hr].
        unfold touch. apply String.eqb_neq in Ht. now rewrite Ht.
      * unfold session_for. cbn [with_db db select sessions].
        rewrite find_touch, Hfind. cbn [option_map]. unfold touch.
        rewrite <- Hs at 1. rewrite String.eqb_refl. now rewrite Hs.
    + apply check_session_unresolved. unfold session_for. rewrite Hdb.
      now apply find_none_existsb.
  - apply check_session_unresolved. unfold session_for. now rewrite Hdb.
Qed.

Lemma check_session_validates_witness :
  let w := at_clock 1793610000000 alice_signed_up in
  has_session (hex token_bytes) w = true
  /\ exists w',
       check_session (hex token_bytes) w = (Returned (Some "alice"), w')
       /\ session_for (hex token_bytes) w'
          = Some (Session.mk (hex token_bytes) "alice"
                             (Some "2026-11-02 09:00:00")).
Proof.
  intros w. split; [reflexivity|].
  pose proof (check_session_validates (hex token_bytes) w) as H.
  change (has_session (hex token_bytes) w) with true in H.
  destruct H as (d & before & s & rest & d' & Hdb & Hl & _ & _ & Hrun
                 & _ & _ & _ & _ & _ & _ & _ & Hfor).
  vm_compute in Hdb. injection Hdb as <-. cbn [sessions] in Hl.
  assert (Hs : s = Session.mk (hex token_bytes) "alice"
                              (Some "2026-10-26 08:00:00")).
  { destruct before as [|x before]; cbn in Hl.
    - now injection Hl.
    - injection Hl as _ Hl. destruct before; discriminate. }
  subst s. exists (with_db w d'). split; [exact Hrun | exact Hfor].
Defined.

(** C5 (as the code has it).  [delete_session t] completes exactly when
    some row of [sessions] carries [t].  With [s] the first such row, it
    then deletes every row carrying [t], keeps every other session row,
    appends the log entry naming the user of [s], and leaves users and
    invites alone.  With no such row (or no open database) the property
    read in [get_username] throws a TypeError before anything is
    written. *)
Theorem delete_session_outcome (t : string) (w : world) :
  if has_session t w
  then
    exists d before s rest w',
      db w = Some d
      /\ sessions d = (before ++ s :: rest)%list
      /\ Session.auth_token s = t
      /\ (forall r, In r before -> Session.auth_token r <> t)
      /\ delete_session t w = (Returned tt, w')
      /\ w' = with_db w
                {| users := users d;
                   sessions :=
                     filter (fun r => negb (String.eqb (Session.auth_token r) t))
                            (sessions d);
                   invites := invites d;
                   logs := logs d
                           ++ [Log.mk ("Deleted session for '"
                                       ++ Session.username s ++ "'.")
                                      (Some (CURRENT_TIMESTAMP (clock w)))] |}
      /\ has_session t w' = false
      /\ (forall r, In r (sessions d) -> Session.auth_token r <> t ->
            exists d', db w' = Some d' /\ In r (sessions d'))
  else delete_session t w = (Threw TypeError, w).
Proof.
  unfold has_session. destruct (db w) as [d|] eqn:Hdb.
  - destruct (existsb _ (sessions d)) eqn:Hex.
    + destruct (first_match _ _ Hex) as (before & s & rest & Hl & Hs & Hb & Hfind).
      apply String.eqb_eq in Hs.
      exists d, before, s, rest. eexists.
      split; [reflexivity|]. split; [exact Hl|]. split; [exact Hs|].
      split. { intros r Hr. apply String.eqb_neq. now apply Hb. }
      split.
      { unfold delete_session, get_username, bind, get_row, log.
        rewrite Hdb. cbn [select]. rewrite Hfind. cbn [prop ret].
        rewrite (execute_open _ w d Hdb). cbn [run].
        erewrite execute_open by reflexivity. reflexivity. }
      split; [reflexivity|]. split.
      * cbn. apply (existsb_deleted
                      (fun r => String.eqb (Session.auth_token r) t)).
      * intros r Hr Ht. eexists. split; [reflexivity|]. cbn.
        apply filter_In. split; [exact Hr|].
        now apply negb_true_iff, String.eqb_neq.
    + unfold delete_session, get_username, bind, get_row. rewrite Hdb.
      cbn [select]. now rewrite (find_none_existsb _ _ Hex).
  - unfold delete_session, get_username, bind, get_row. now rewrite Hdb.
Qed.

(** C5, the claim refuted: on the freshly created database no session
    carries token [0000], and [delete_session] throws. *)
Lemma delete_session_unknown_token_throws :
  has_session "0000" first_start = false
  /\ delete_session "0000" first_start = (Threw TypeError, first_start).
Proof. split; reflexivity. Qed.

(* ================================================================== *)
(** * The audit log *)
(* ================================================================== *)

(** C8 (as the code has it).  [log] skips the insertion only for an
    absent message ([null] or [undefined]); every string, the empty one
    included, is appended to [logs] with the current timestamp, the other
    tables being left alone.  Without an open database nothing happens. *)
Theorem log_appends_every_string (m : option string) (w : world) :
  log m w =
  (Returned tt,
   match m, db w with
   | Some text, Some d =>
       with_db w {| users := users d; sessions := sessions d;
                    invites := invites d;
                    logs := logs d
                            ++ [Log.mk text (Some (CURRENT_TIMESTAMP (clock w)))] |}
   | _, _ => w
   end).
Proof.
  destruct m as [text|]; [|reflexivity].
  unfold log, execute. destruct (db w); reflexivity.
Qed.

(** C8, the claim refuted: the empty message is inserted. *)
Lemma log_inserts_empty_message :
  db (after (log (Some "")) first_start)
  = Some {| users := [User.mk "admin" "DEFAULT PASSWORD HASH" true];
            sessions := []; invites := [];
            logs := [Log.mk "" (Some "2026-10-26 08:00:00")] |}.
Proof. reflexivity. Qed.

(* ================================================================== *)
(** * Invite codes: validity *)
(* ================================================================== *)

Lemma check_invite_code_has_invite (c : string) (w : world) :
  check_invite_code c w = (Returned (has_invite c w), w).
Proof.
  unfold check_invite_code, has_invite, bind, get_row.
  destruct (db w) as [d|]; [|reflexivity].
  cbn. rewrite existsb_find. now destruct (find _ (invites d)).
Qed.

(** C4 (as the code has it).  [check_invite_code c] is true exactly
    when some invite row carries code [c]; the row's expiration is not
    looked at. *)
Theorem check_invite_code_ignores_expiration (c : string) (w : world) :
  check_invite_code c w = (Returned (has_invite c w), w)
  /\ (has_invite c w = true <->
      exists d r, db w = Some d /\ In r (invites d)
                  /\ Invite.invite_code r = c).
Proof.
  split.
  - apply check_invite_code_has_invite.
  - unfold has_invite. destruct (db w) as [d|].
    + rewrite existsb_exists. split.
      * intros [r [Hr E]]. exists d, r. apply String.eqb_eq in E. auto.
      * intros [d' [r [[= <-] [Hr E]]]]. exists r. split; [exact Hr|].
        now apply String.eqb_eq.
    + split; [discriminate|]. intros [d [r [H _]]]. discriminate.
Qed.

(** C4, the claim refuted: an hour after the invite's expiration no live
    invite for [ab12cd] exists, and [check_invite_code] still says true. *)
Lemma check_invite_code_accepts_expired :
  db hour_after_expiry
  = Some {| users := [User.mk "admin" "DEFAULT PASSWORD HASH" true];
            sessions := [];
            invites := [Invite.mk "ab12cd" (Some "2026-11-02 08:00:00")];
            logs := [Log.mk "Created new invite code 'ab12cd'."
                            (Some "2026-10-26 08:00:00")] |}
  /\ CURRENT_TIMESTAMP (clock hour_after_expiry) = "2026-11-02 09:00:00"
  /\ live_invite "ab12cd" hour_after_expiry = false
  /\ check_invite_code "ab12cd" hour_after_expiry
     = (Returned true, hour_after_expiry).
Proof. repeat split. Qed.

(* ================================================================== *)
(** * Credentials *)
(* ================================================================== *)

Section Credentials.

Variable hashSync : string -> Z -> list Byte.byte -> string.
Variable compareSync : string -> string -> bool.

Lemma check_username_has_user (u : string) (w : world) (d : database) :
  db w = Some d -> check_username u w = (Returned (has_user u d), w).
Proof.
  intros Hdb. unfold check_username, has_user, bind, get_row. rewrite Hdb.
  cbn. rewrite existsb_find. now destruct (find _ (users d)).
Qed.

Lemma check_username_closed (u : string) (w : world) :
  db w = None -> check_username u w = (Returned false, w).
Proof.
  intros Hdb. unfold check_username, bind, get_row. now rewrite Hdb.
Qed.

(** C2 (as the code has it).  For every username that no user row
    carries and every candidate password, [check_password] does not
    return false: the read of [user_info.password] throws a TypeError and
    nothing is written.  The guard is at the caller: [check_username]
    returns false there, and the sign-in route never calls
    [check_password] for such a name; it answers 404, or 400 when the
    username or the password is the empty string, and writes nothing. *)
Theorem check_password_unknown_user_throws
    (u p : string) (drawn : list Byte.byte) (w : world) :
  (forall d, db w = Some d -> has_user u d = false) ->
  check_password compareSync u p w = (Threw TypeError, w)
  /\ check_username u w = (Returned false, w)
  /\ signin compareSync drawn (signin_body u p) w
     = (Returned (if String.eqb u "" || String.eqb p ""
                  then invalid_request_error
                  else response_message 404 "Username does not exist." []),
        w).
Proof.
  intros Hno.
  assert (Hname : check_username u w = (Returned false, w)).
  { destruct (db w) as [d|] eqn:Hdb.
    - rewrite (check_username_has_user u w d Hdb). now rewrite (Hno d).
    - now apply check_username_closed. }
  split; [|split; [exact Hname|]].
  - unfold check_password, bind, get_row.
    destruct (db w) as [d|] eqn:Hdb; [|reflexivity].
    rewrite (select_user_absent u d (Hno d eq_refl)). reflexivity.
  - unfold signin, signin_body, try_catch, bind.
    cbn [req_username req_password].
    destruct u as [|a u']; [reflexivity|].
    destruct p as [|b p']; [reflexivity|].
    cbn [given String.eqb orb]. now rewrite Hname.
Qed.

(** C10.  [create_user] deletes the invite row first and inserts the user
    row second.  When the username is taken the insertion violates the
    primary key of [users] and throws; the invite rows for the code are
    gone all the same, no user and no log entry is added, and the code no
    longer passes [check_invite_code].  In every call, returning or
    throwing, the invite rows for the code are gone afterwards. *)
Theorem create_user_consumes_invite_on_failure
    (salt : list Byte.byte) (u p c : string) (w : world) (d : database) :
  db w = Some d ->
  has_user u d = true ->
  exists w',
    create_user hashSync salt u p c w
      = (Threw (SqliteError UniqueConstraint), w')
    /\ db w'
       = Some {| users := users d; sessions := sessions d;
                 invites :=
                   filter (fun r => negb (String.eqb (Invite.invite_code r) c))
                          (invites d);
                 logs := logs d |}
    /\ has_invite c w' = false
    /\ check_invite_code c w' = (Returned false, w')
    /\ forall u0 p0 w0,
         has_invite c (after (create_user hashSync salt u0 p0 c) w0) = false.
Proof.
  intros Hdb Htaken.
  assert (Halways : forall u0 p0 w0,
            has_invite c (after (create_user hashSync salt u0 p0 c) w0) = false).
  { intros u0 p0 w0. unfold after, create_user, bind, log.
    destruct (db w0) as [d0|] eqn:Hdb0.
    - rewrite (execute_open _ w0 d0 Hdb0). cbn [run].
      erewrite execute_open by reflexivity. cbn [run]. unfold insert_user.
      match goal with
      | |- context [if ?taken then inr _ else _] => destruct taken
      end.
      + cbn. apply (existsb_deleted
                      (fun r => String.eqb (Invite.invite_code r) c)).
      + erewrite execute_open by reflexivity. cbn.
        apply (existsb_deleted (fun r => String.eqb (Invite.invite_code r) c)).
    - rewrite !(execute_closed _ w0 Hdb0). unfold has_invite. cbn.
      now rewrite Hdb0. }
  unfold create_user, bind, execute. rewrite Hdb. cbn.
  unfold insert_user, has_user in *. cbn. rewrite Htaken.
  eexists. split; [reflexivity|]. split; [reflexivity|].
  assert (Hgone : has_invite c
            (with_db w {| users := users d; sessions := sessions d;
                          invites :=
                            filter (fun r =>
                                      negb (String.eqb (Invite.invite_code r) c))
                                   (invites d);
                          logs := logs d |}) = false).
  { cbn. apply (existsb_deleted (fun r => String.eqb (Invite.invite_code r) c)). }
  split; [exact Hgone|]. split; [|exact Halways].
  rewrite check_invite_code_has_invite. now rewrite Hgone.
Qed.

End Credentials.

(** C2, the claim refuted: nobody is called [ghost] on the freshly
    created database, and checking a password for that name throws. *)
Lemma check_password_unknown_user_counterexample :
  check_username "ghost" first_start = (Returned false, first_start)
  /\ check_password demo_compareSync "ghost" "pw" first_start
     = (Threw TypeError, first_start).
Proof. split; reflexivity. Qed.

Lemma check_password_unknown_user_throws_witness :
  check_password demo_compareSync "ghost" "pw" first_start
    = (Threw TypeError, first_start)
  /\ check_username "ghost" first_start = (Returned false, first_start)
  /\ signin demo_compareSync token_bytes (signin_body "ghost" "pw") first_start
     = (Returned (response_message 404 "Username does not exist." []),
        first_start).
Proof.
  apply (check_password_unknown_user_throws demo_compareSync "ghost" "pw"
           token_bytes first_start).
  intros d Hdb. vm_compute in Hdb. injection Hdb as <-. reflexivity.
Defined.

Lemma create_user_consumes_invite_on_failure_witness :
  exists w',
    create_user demo_hashSync [] "admin" "pw" "ab12cd" invite_issued
      = (Threw (SqliteError UniqueConstraint), w')
    /\ db w'
       = Some {| users := [User.mk "admin" "DEFAULT PASSWORD HASH" true];
                 sessions := [];
                 invites := [];
                 logs := [Log.mk "Created new invite code 'ab12cd'."
                                 (Some "2026-10-26 08:00:00")] |}
    /\ has_invite "ab12cd" w' = false
    /\ check_invite_code "ab12cd" w' = (Returned false, w')
    /\ forall u0 p0 w0,
         has_invite "ab12cd"
           (after (create_user demo_hashSync [] u0 p0 "ab12cd") w0) = false.
Proof.
  apply (create_user_consumes_invite_on_failure demo_hashSync [] "admin" "pw"
           "ab12cd" invite_issued
           {| users := [User.mk "admin" "DEFAULT PASSWORD HASH" true];
              sessions := [];
              invites := [Invite.mk "ab12cd" (Some "2026-11-02 08:00:00")];
              logs := [Log.mk "Created new invite code 'ab12cd'."
                              (Some "2026-10-26 08:00:00")] |}).
  - reflexivity.
  - reflexivity.
Defined.

(* ================================================================== *)
(** * Deleting a user *)
(* ================================================================== *)

(** C1.  Let [u] be a user and [t] a token that only sessions of [u]
    carry.  [delete_user u] completes; afterwards [check_username u] is
    false, [check_session t] returns null, and no session row of [u] is
    left in the table: the deletion has cascaded. *)
Theorem delete_user_cascades (u t : string) (w : world) (d : database) :
  db w = Some d ->
  has_user u d = true ->
  (forall r, In r (sessions d) -> Session.auth_token r = t ->
             Session.username r = u) ->
  exists w',
    delete_user u w = (Returned tt, w')
    /\ check_username u w' = (Returned false, w')
    /\ check_session t w' = (Returned None, w')
    /\ (forall d' r, db w' = Some d' -> In r (sessions d') ->
                     Session.username r <> u).
Proof.
  intros Hdb Huser Honly.
  unfold delete_user, bind, execute. rewrite Hdb. cbn. rewrite Huser.
  eexists. split; [reflexivity|].
  split; [|split].
  - erewrite check_username_has_user by reflexivity.
    unfold has_user. cbn.
    now rewrite (existsb_deleted (fun r => String.eqb (User.username r) u)).
  - apply check_session_unresolved. unfold session_for. cbn.
    apply find_absent. intros r Hr. apply filter_In in Hr.
    destruct Hr as [Hr Hother].
    destruct (String.eqb (Session.auth_token r) t) eqn:E; [|reflexivity].
    apply String.eqb_eq in E. apply negb_true_iff, String.eqb_neq in Hother.
    elim Hother. now apply Honly.
  - intros d' r [= <-] Hr. cbn in Hr. apply filter_In in Hr.
    destruct Hr as [_ Hother]. now apply negb_true_iff, String.eqb_neq in Hother.
Qed.

Lemma delete_user_cascades_witness :
  exists w',
    delete_user "alice" alice_signed_up = (Returned tt, w')
    /\ check_username "alice" w' = (Returned false, w')
    /\ check_session (hex token_bytes) w' = (Returned None, w')
    /\ (forall d' r, db w' = Some d' -> In r (sessions d') ->
                     Session.username r <> "alice").
Proof.
  destruct (db alice_signed_up) as [d|] eqn:Hdb; [|discriminate].
  apply (delete_user_cascades "alice" (hex token_bytes) alice_signed_up d Hdb).
  - vm_compute in Hdb. injection Hdb as <-. reflexivity.
  - vm_compute in Hdb. injection Hdb as <-.
    intros r [<-|[]] _. reflexivity.
Defined.

(* ================================================================== *)
(** * Housekeeping *)
(* ================================================================== *)

(** A text below [D ++ " " ++ x] is below [D ++ "T" ++ y]: the two
    renderings of one instant share the date, and the space sorts before
    the letter. *)
Lemma text_lt_space_T (D e x y : string) :
  text_lt e (D ++ String " " x) = true ->
  text_lt e (D ++ String "T" y) = true.
Proof.
  unfold text_lt, String.ltb. revert e.
  induction D as [|a D IH]; intros [|c e]; cbn; try reflexivity.
  - unfold Ascii.compare.
    destruct (N.compare_spec (N_of_ascii c) (N_of_ascii " ")) as [E|E|E];
      cbn in E; try discriminate; intros _.
    + rewrite E. reflexivity.
    + assert (H : (N_of_ascii c < N_of_ascii "T")%N) by (cbn; lia).
      apply N.compare_lt_iff in H. now rewrite H.
  - destruct (Ascii.compare c a); try tauto. apply IH.
Qed.

(** What the sweep compares an expiration with is never smaller than
    [CURRENT_TIMESTAMP]. *)
Lemma expired_is_swept (now : Z) (r : Invite.row) :
  expired now r = true ->
  sql_lt (Invite.expiration r) (Some (toISOString now)) = true.
Proof.
  unfold expired, sql_lt. destruct (Invite.expiration r) as [e|]; [|discriminate].
  unfold CURRENT_TIMESTAMP, sqlite_datetime, toISOString.
  apply text_lt_space_T.
Qed.

Lemma clean_database_open (w : world) (d : database) :
  db w = Some d ->
  clean_database w =
  (Returned tt,
   with_db w
     {| users := users d;
        sessions :=
          filter (fun r => negb (sql_lt (Session.last_active r)
                                        (DATETIME (toISOString (clock w)) (-30))))
                 (sessions d);
        invites :=
          filter (fun r => negb (sql_lt (Invite.expiration r)
                                        (Some (toISOString (clock w)))))
                 (invites d);
        logs :=
          filter (fun r => negb (sql_lt (Log.timestamp r)
                                        (DATETIME (toISOString (clock w)) (-30))))
                 (logs d) |}).
Proof.
  intros Hdb. unfold clean_database, current_time_iso, bind, execute.
  rewrite Hdb. reflexivity.
Qed.

Lemma clean_database_removes_expired (c : string) (w : world) (d : database) :
  db w = Some d ->
  (forall r, In r (invites d) -> Invite.invite_code r = c ->
             expired (clock w) r = true) ->
  has_invite c (after clean_database w) = false.
Proof.
  intros Hdb Hexp. unfold after. rewrite (clean_database_open w d Hdb).
  cbn. apply existsb_absent. intros r Hr. apply filter_In in Hr.
  destruct Hr as [Hr Hkept].
  destruct (String.eqb (Invite.invite_code r) c) eqn:E; [|reflexivity].
  apply String.eqb_eq in E.
  rewrite (expired_is_swept _ r (Hexp r Hr E)) in Hkept. discriminate.
Qed.

Lemma text_lt_same_date (D x y : string) :
  text_lt (D ++ String " " x) (D ++ String "T" y) = true.
Proof.
  unfold text_lt, String.ltb.
  induction D as [|a D IH]; cbn; [reflexivity|].
  unfold Ascii.compare. now rewrite N.compare_refl.
Qed.

(** The sweep takes every invite that expires on the current UTC day,
    whatever the hour of its expiration. *)
Lemma clean_database_sweeps_whole_day
    (c : string) (secs : Z) (w : world) (d d' : database) :
  db w = Some d ->
  secs / 86400 = clock w / 1000 / 86400 ->
  db (after clean_database w) = Some d' ->
  ~ In (Invite.mk c (Some (sqlite_datetime secs))) (invites d').
Proof.
  intros Hdb Hday. unfold after. rewrite (clean_database_open w d Hdb).
  intros [= <-] Hin. cbn in Hin. apply filter_In in Hin.
  destruct Hin as [_ Hkept]. cbn in Hkept.
  unfold sqlite_datetime, toISOString, date_text in Hkept.
  rewrite Hday, text_lt_same_date in Hkept. discriminate.
Qed.

(* ================================================================== *)
(** * Redeeming an invite code on the sign-up route *)
(* ================================================================== *)

Section Redemption.

Variable hashSync : string -> Z -> list Byte.byte -> string.

Lemma given_nonempty (s : string) : s <> "" -> given (Some s) = Some s.
Proof. destruct s; [contradiction | reflexivity]. Qed.

Lemma is_alphanumeric_nonempty (s : string) : is_alphanumeric s = true -> s <> "".
Proof. destruct s; [discriminate | discriminate]. Qed.

Lemma hex_nonempty (bytes : list Byte.byte) : bytes <> [] -> hex bytes <> "".
Proof. destruct bytes; [contradiction | discriminate]. Qed.

(** Every refusal of the sign-up route is a 400 that writes nothing; a
    code no invite row carries is refused. *)
Lemma signup_without_invite
    (salt drawn : list Byte.byte) (u p c : string) (w : world) :
  has_invite c w = false ->
  exists r, signup hashSync salt drawn (signup_body u p c) w = (Returned r, w)
            /\ status r = 400.
Proof.
  intros Hnone. unfold signup, signup_body, try_catch, bind.
  cbn [req_username req_password req_invite_code].
  destruct u as [|a u']; [eexists; split; reflexivity|].
  destruct p as [|b p']; [eexists; split; reflexivity|].
  destruct c as [|e c']; [eexists; split; reflexivity|].
  cbn [given].
  destruct (negb (is_alphanumeric (String a u'))
            || negb (is_between_lengths (String a u') 1 32));
    [eexists; split; reflexivity|].
  destruct (db w) as [d|] eqn:Hdb.
  - rewrite (check_username_has_user _ w d Hdb).
    destruct (has_user (String a u') d); [eexists; split; reflexivity|].
    rewrite check_invite_code_has_invite, Hnone.
    eexists; split; reflexivity.
  - rewrite (check_username_closed _ w Hdb).
    rewrite check_invite_code_has_invite, Hnone.
    eexists; split; reflexivity.
Qed.

(** The route's one success: a well-formed, unused username, a password
    and a code some invite row carries. *)
Lemma signup_with_invite
    (salt drawn : list Byte.byte) (u p c : string) (w : world) (d : database) :
  db w = Some d ->
  is_alphanumeric u = true ->
  is_between_lengths u 1 32 = true ->
  has_user u d = false ->
  p <> "" -> c <> "" ->
  has_invite c w = true ->
  exists w',
    signup hashSync salt drawn (signup_body u p c) w
      = (Returned (response_message 200 "Signed up successfully."
                     [("auth_token", hex drawn)]), w')
    /\ has_invite c w' = false.
Proof.
  intros Hdb Halnum Hlen Hfree Hp Hc Hinv.
  unfold signup, signup_body, try_catch, bind.
  cbn [req_username req_password req_invite_code].
  rewrite (given_nonempty u (is_alphanumeric_nonempty u Halnum)).
  rewrite (given_nonempty p Hp), (given_nonempty c Hc).
  rewrite Halnum, Hlen. cbn [negb orb].
  rewrite (check_username_has_user u w d Hdb), Hfree.
  rewrite check_invite_code_has_invite, Hinv. cbn [negb].
  unfold create_user, create_session, bind, execute, log. rewrite Hdb.
  cbn. unfold insert_user, has_user in *. cbn. rewrite Hfree. cbn.
  rewrite existsb_app_one, String.eqb_refl, orb_true_r.
  eexists. split; [reflexivity|].
  cbn. apply (existsb_deleted (fun r => String.eqb (Invite.invite_code r) c)).
Qed.

Lemma create_invite_code_open (code_bytes : list Byte.byte) (w : world)
    (d : database) :
  db w = Some d ->
  create_invite_code code_bytes w =
  (Returned (hex code_bytes),
   with_db w
     {| users := users d; sessions := sessions d;
        invites := invites d
                   ++ [Invite.mk (hex code_bytes)
                         (DATETIME (CURRENT_TIMESTAMP (clock w)) 7)];
        logs := logs d
                ++ [Log.mk ("Created new invite code '" ++ hex code_bytes ++ "'.")
                           (Some (CURRENT_TIMESTAMP (clock w)))] |}).
Proof.
  intros Hdb. unfold create_invite_code, bind, execute, log. rewrite Hdb.
  reflexivity.
Qed.

End Redemption.

(** C3 (as the code has it).  Issue a code [c] on an open database and
    let [u] be a well-formed, unused username.  Then
    - [c] passes [check_invite_code] at once, and a sign-up with it
      succeeds and deletes it;
    - any further sign-up with [c] is refused with a 400;
    - the expiration is enforced by the housekeeping sweep alone: after
      a sweep run at a time [later] at which the rows for [c] have
      expired, [c] is gone and a sign-up with it is refused with a 400.
    Redemption itself never looks at the expiration. *)
Theorem invite_redeems_once
    (hashSync : string -> Z -> list Byte.byte -> string)
    (code_bytes salt drawn : list Byte.byte) (u p : string)
    (w : world) (d : database) (later : Z) :
  db w = Some d ->
  code_bytes <> [] ->
  is_alphanumeric u = true ->
  is_between_lengths u 1 32 = true ->
  has_user u d = false ->
  p <> "" ->
  let c := hex code_bytes in
  let issued := after (create_invite_code code_bytes) w in
  (forall d1 r, db issued = Some d1 -> In r (invites d1) ->
                Invite.invite_code r = c -> expired later r = true) ->
  create_invite_code code_bytes w = (Returned c, issued)
  /\ check_invite_code c issued = (Returned true, issued)
  /\ (exists redeemed,
        signup hashSync salt drawn (signup_body u p c) issued
          = (Returned (response_message 200 "Signed up successfully."
                         [("auth_token", hex drawn)]), redeemed)
        /\ has_invite c redeemed = false
        /\ forall salt' drawn' u' p',
             exists r,
               signup hashSync salt' drawn' (signup_body u' p' c) redeemed
                 = (Returned r, redeemed)
               /\ status r = 400)
  /\ (let swept := after clean_database (at_clock later issued) in
      has_invite c swept = false
      /\ forall salt' drawn' u' p',
           exists r,
             signup hashSync salt' drawn' (signup_body u' p' c) swept
               = (Returned r, swept)
             /\ status r = 400).
Proof.
  intros Hdb Hbytes Halnum Hlen Hfree Hp c issued Hexp.
  pose proof (create_invite_code_open code_bytes w d Hdb) as Hissue.
  assert (Hissued : issued = snd (create_invite_code code_bytes w))
    by reflexivity.
  rewrite Hissue in Hissued. cbn [snd] in Hissued.
  assert (Hvalid : has_invite c issued = true).
  { rewrite Hissued. cbn. rewrite existsb_app_one. cbn.
    now rewrite String.eqb_refl, orb_true_r. }
  split; [now rewrite Hissued|].
  split; [now rewrite check_invite_code_has_invite, Hvalid|].
  split.
  - destruct (signup_with_invite hashSync salt drawn u p c issued
                {| users := users d; sessions := sessions d;
                   invites := invites d
                              ++ [Invite.mk c
                                    (DATETIME (CURRENT_TIMESTAMP (clock w)) 7)];
                   logs := logs d
                           ++ [Log.mk ("Created new invite code '" ++ c ++ "'.")
                                      (Some (CURRENT_TIMESTAMP (clock w)))] |})
      as [redeemed [Hok Hgone]]; try assumption.
    + now rewrite Hissued.
    + now apply hex_nonempty.
    + exists redeemed. split; [exact Hok|]. split; [exact Hgone|].
      intros salt' drawn' u' p'. now apply signup_without_invite.
  - assert (Hswept : has_invite c (after clean_database (at_clock later issued))
                     = false).
    { destruct (db issued) as [d1|] eqn:Hdb1.
      - apply (clean_database_removes_expired c (at_clock later issued) d1).
        + exact Hdb1.
        + intros r Hr Hc. now apply (Hexp d1).
      - rewrite Hissued in Hdb1. discriminate. }
    split; [exact Hswept|].
    intros salt' drawn' u' p'. now apply signup_without_invite.
Qed.

Lemma invite_redeems_once_witness :
  let c := "ab12cd" in
  let swept := after clean_database (at_clock 1793620800000 invite_issued) in
  create_invite_code [Byte.xab; Byte.x12; Byte.xcd] first_start
    = (Returned c, invite_issued)
  /\ check_invite_code c invite_issued = (Returned true, invite_issued)
  /\ (exists redeemed,
        signup demo_hashSync [] token_bytes (signup_body "alice" "s3cret" c)
               invite_issued
          = (Returned (response_message 200 "Signed up successfully."
                         [("auth_token", hex token_bytes)]), redeemed)
        /\ has_invite c redeemed = false
        /\ forall salt' drawn' u' p',
             exists r,
               signup demo_hashSync salt' drawn' (signup_body u' p' c) redeemed
                 = (Returned r, redeemed)
               /\ status r = 400)
  /\ (has_invite c swept = false
      /\ forall salt' drawn' u' p',
           exists r,
             signup demo_hashSync salt' drawn' (signup_body u' p' c) swept
               = (Returned r, swept)
             /\ status r = 400).
Proof.
  apply (invite_redeems_once demo_hashSync [Byte.xab; Byte.x12; Byte.xcd] []
           token_bytes "alice" "s3cret" first_start
           {| users := [User.mk "admin" "DEFAULT PASSWORD HASH" true];
              sessions := []; invites := []; logs := [] |}
           1793620800000).
  - reflexivity.
  - discriminate.
  - reflexivity.
  - reflexivity.
  - reflexivity.
  - discriminate.
  - intros d1 r Hdb Hr Hc. vm_compute in Hdb. injection Hdb as <-.
    destruct Hr as [<-|[]]. reflexivity.
Defined.

(** C3, the claim refuted: the invite of 2026-10-26 08:00:00 expires on
    2026-11-02 at 08:00:00 and is never redeemed; the sweep of the eve
    leaves it in place, and at 09:00:00, an hour past its expiration, a
    sign-up with it succeeds. *)
Lemma expired_invite_still_redeems :
  db hour_after_expiry
  = Some {| users := [User.mk "admin" "DEFAULT PASSWORD HASH" true];
            sessions := [];
            invites := [Invite.mk "ab12cd" (Some "2026-11-02 08:00:00")];
            logs := [Log.mk "Created new invite code 'ab12cd'."
                            (Some "2026-10-26 08:00:00")] |}
  /\ CURRENT_TIMESTAMP (clock hour_after_expiry) = "2026-11-02 09:00:00"
  /\ expired (clock hour_after_expiry)
             (Invite.mk "ab12cd" (Some "2026-11-02 08:00:00")) = true
  /\ fst (signup demo_hashSync [] token_bytes (signup_body "bob" "pw" "ab12cd")
                 hour_after_expiry)
     = Returned (response_message 200 "Signed up successfully."
                   [("auth_token", hex token_bytes)])
  /\ has_user "bob"
       match db (after (signup demo_hashSync [] token_bytes
                          (signup_body "bob" "pw" "ab12cd")) hour_after_expiry)
       with Some d => d | None => create_tables end = true.
Proof. repeat split. Qed.

(** C7, evaluated where the code departs from it.  An invite issued on
    2026-10-26 at 23:00:00 expires on 2026-11-02 at 23:00:00.  The sweep
    of 2026-11-02 at 08:00:00 compares that expiration, the text
    [2026-11-02 23:00:00], with the bound parameter
    [2026-11-02T08:00:00.000Z]; the texts agree up to the tenth
    character, where the space sorts before the [T], so the invite is
    deleted fifteen hours before it expires. *)
Theorem clean_database_deletes_unexpired_invite :
  db morning_of_expiry
  = Some {| users := [User.mk "admin" "DEFAULT PASSWORD HASH" true];
            sessions := [];
            invites := [Invite.mk "ab12cd" (Some "2026-11-02 23:00:00")];
            logs := [Log.mk "Created new invite code 'ab12cd'."
                            (Some "2026-10-26 23:00:00")] |}
  /\ CURRENT_TIMESTAMP (clock morning_of_expiry) = "2026-11-02 08:00:00"
  /\ toISOString (clock morning_of_expiry) = "2026-11-02T08:00:00.000Z"
  /\ expired (clock morning_of_expiry)
             (Invite.mk "ab12cd" (Some "2026-11-02 23:00:00")) = false
  /\ fst (clean_database morning_of_expiry) = Returned tt
  /\ db (after clean_database morning_of_expiry)
     = Some {| users := [User.mk "admin" "DEFAULT PASSWORD HASH" true];
               sessions := [];
               invites := [];
               logs := [Log.mk "Created new invite code 'ab12cd'."
                               (Some "2026-10-26 23:00:00")] |}.
Proof. repeat split. Qed.

(** The housekeeping scenario of the specification: the stale session,
    the invite expired a minute ago and the forty-day-old log entry go;
    the fresh session, the invite expiring on a later day and
    yesterday's log entry stay. *)
Lemma clean_database_housekeeping_scenario :
  clean_database housekeeping_scenario =
  (Returned tt,
   {| db := Some
        {| users := [User.mk "admin" "DEFAULT PASSWORD HASH" true;
                     User.mk "alice" "hash(s3cret)" false];
           sessions := [Session.mk "fresh" "alice" (Some "2026-11-01 20:00:00")];
           invites := [Invite.mk "f2e5h0" (Some "2026-11-08 10:00:00")];
           logs := [Log.mk "yesterday" (Some "2026-11-01 08:00:00")] |};
      clock := 1793606400000 |}).
Proof. reflexivity. Qed.

(* ================================================================== *)
(** * What every route keeps *)
(* ================================================================== *)

Section Keeps.

Variable rel : world -> world -> Prop.
Hypothesis rel_refl : forall w, rel w w.
Hypothesis rel_trans : forall a b c, rel a b -> rel b c -> rel a c.

Lemma keeps_ret {A} (a : A) : keeps rel (ret a).
Proof. intros w. apply rel_refl. Qed.

Lemma keeps_throw {A} (e : exn) : keeps rel (@throw A e).
Proof. intros w. apply rel_refl. Qed.

Lemma keeps_bind {A B} (c : js A) (k : A -> js B) :
  keeps rel c -> (forall a, keeps rel (k a)) -> keeps rel (bind c k).
Proof.
  unfold keeps, after, bind. intros Hc Hk w. specialize (Hc w).
  destruct (c w) as [[a|e] w1]; cbn in *; [|exact Hc].
  apply rel_trans with w1; [exact Hc | apply Hk].
Qed.

Lemma keeps_try_catch {A} (body handler : js A) :
  keeps rel body -> keeps rel handler -> keeps rel (try_catch body handler).
Proof.
  unfold keeps, after, try_catch. intros Hb Hh w. specialize (Hb w).
  destruct (body w) as [[a|e] w1]; cbn in *; [exact Hb|].
  apply rel_trans with w1; [exact Hb | apply Hh].
Qed.

Lemma keeps_get_row {R} (q : query R) : keeps rel (get_row q).
Proof.
  intros w. unfold after, get_row. destruct (db w); apply rel_refl.
Qed.

Lemma keeps_prop {R A} (x : fetched R) (column : R -> A) :
  keeps rel (prop x column).
Proof. destruct x; intros w; apply rel_refl. Qed.

Hypothesis route_statements_keep :
  forall q, route_statement q = true -> keeps rel (execute q).

Ltac keeps_step :=
  match goal with
  | |- keeps _ (ret _) => apply keeps_ret
  | |- keeps _ (throw _) => apply keeps_throw
  | |- keeps _ (get_row _) => apply keeps_get_row
  | |- keeps _ (prop _ _) => apply keeps_prop
  | |- keeps _ (execute _) => apply route_statements_keep; reflexivity
  | |- keeps _ (bind _ _) => apply keeps_bind; [|intros ?]
  | |- keeps _ (try_catch _ _) => apply keeps_try_catch
  | |- keeps _ (if ?x then _ else _) => destruct x eqn:?
  | |- keeps _ (match ?x with _ => _ end) => destruct x eqn:?
  end.

Lemma keeps_log (m : option string) : keeps rel (log m).
Proof. unfold log. repeat keeps_step. Qed.

Lemma keeps_check_username (u : string) : keeps rel (check_username u).
Proof. unfold check_username. repeat keeps_step. Qed.

Lemma keeps_check_password (compareSync : string -> string -> bool)
    (u p : string) : keeps rel (check_password compareSync u p).
Proof. unfold check_password. repeat keeps_step. Qed.

Lemma keeps_check_admin (u : string) : keeps rel (check_admin u).
Proof. unfold check_admin. repeat keeps_step. Qed.

Lemma keeps_check_invite_code (c : string) : keeps rel (check_invite_code c).
Proof. unfold check_invite_code. repeat keeps_step. Qed.

Lemma keeps_create_user (hashSync : string -> Z -> list Byte.byte -> string)
    (salt : list Byte.byte) (u p c : string) :
  keeps rel (create_user hashSync salt u p c).
Proof. unfold create_user. repeat keeps_step. apply keeps_log. Qed.

Lemma keeps_create_session (drawn : list Byte.byte) (u : string) :
  keeps rel (create_session drawn u).
Proof. unfold create_session. repeat keeps_step. apply keeps_log. Qed.

Lemma keeps_check_session (t : string) : keeps rel (check_session t).
Proof. unfold check_session. repeat keeps_step. Qed.

Lemma keeps_delete_session (t : string) : keeps rel (delete_session t).
Proof.
  unfold delete_session, get_username. repeat keeps_step. apply keeps_log.
Qed.

Lemma keeps_create_invite_code (drawn : list Byte.byte) :
  keeps rel (create_invite_code drawn).
Proof. unfold create_invite_code. repeat keeps_step. apply keeps_log. Qed.

Lemma keeps_delete_user (u : string) :
  String.eqb u "admin" = false -> keeps rel (delete_user u).
Proof.
  intros Hu. unfold delete_user. apply keeps_bind.
  - apply route_statements_keep. cbn. now rewrite Hu.
  - intros _. apply keeps_log.
Qed.

Lemma keeps_auth (b : body) (next : string -> js response) :
  (forall u, keeps rel (next u)) -> keeps rel (auth b next).
Proof.
  intros Hnext. unfold auth. apply keeps_try_catch; [|apply keeps_ret].
  destruct (given (req_auth_token b)); [|apply keeps_ret].
  apply keeps_bind; [apply keeps_check_session|]. intros u.
  destruct (given u); [apply Hnext | apply keeps_ret].
Qed.

Lemma keeps_admin (u : string) (next : js response) :
  keeps rel next -> keeps rel (admin u next).
Proof.
  intros Hnext. unfold admin. apply keeps_try_catch; [|apply keeps_ret].
  apply keeps_bind; [apply keeps_check_admin|]. intros [|]; cbn.
  - exact Hnext.
  - apply keeps_ret.
Qed.

(** Whatever the statements of the routes keep, every request keeps. *)
Lemma keeps_backend
    (hashSync : string -> Z -> list Byte.byte -> string)
    (compareSync : string -> string -> bool)
    (r : route) (salt drawn : list Byte.byte) (b : body) :
  keeps rel (backend hashSync compareSync r salt drawn b).
Proof.
  destruct r; unfold backend.
  - unfold signin. apply keeps_try_catch; [|apply keeps_ret].
    destruct (given (req_username b)); [|apply keeps_ret].
    destruct (given (req_password b)); [|apply keeps_ret].
    apply keeps_bind; [apply keeps_check_username|]. intros [|]; cbn;
      [|apply keeps_ret].
    apply keeps_bind; [apply keeps_check_password|]. intros [|]; cbn;
      [|apply keeps_ret].
    apply keeps_bind; [apply keeps_create_session|]. intros t.
    apply keeps_ret.
  - unfold signup. apply keeps_try_catch; [|apply keeps_ret].
    destruct (given (req_username b)) as [u|]; [|apply keeps_ret].
    destruct (given (req_password b)) as [p|]; [|apply keeps_ret].
    destruct (given (req_invite_code b)) as [c|]; [|apply keeps_ret].
    destruct (negb (is_alphanumeric u) || negb (is_between_lengths u 1 32));
      [apply keeps_ret|].
    apply keeps_bind; [apply keeps_check_username|]. intros [|];
      [apply keeps_ret|].
    apply keeps_bind; [apply keeps_check_invite_code|]. intros [|]; cbn;
      [|apply keeps_ret].
    apply keeps_bind; [apply keeps_create_user|]. intros _.
    apply keeps_bind; [apply keeps_create_session|]. intros t.
    apply keeps_ret.
  - unfold signout. apply keeps_auth. intros _.
    apply keeps_try_catch; [|apply keeps_ret].
    destruct (req_auth_token b); [|apply keeps_throw].
    apply keeps_bind; [apply keeps_delete_session|]. intros _.
    apply keeps_ret.
  - unfold create_invite_code_route. apply keeps_auth. intros u.
    apply keeps_admin. apply keeps_try_catch; [|apply keeps_ret].
    apply keeps_bind; [apply keeps_create_invite_code|]. intros c.
    apply keeps_ret.
  - unfold delete_user_route. apply keeps_auth. intros acting.
    apply keeps_admin. apply keeps_try_catch; [|apply keeps_ret].
    destruct (given (req_username b)) as [u|]; [|apply keeps_ret].
    destruct (String.eqb u "admin") eqn:Hu; [apply keeps_ret|].
    apply keeps_bind; [apply keeps_check_username|]. intros [|]; cbn;
      [|apply keeps_ret].
    apply keeps_bind; [apply keeps_delete_user; exact Hu|]. intros _.
    apply keeps_ret.
Qed.

End Keeps.

(* ================================================================== *)
(** * The constraints of the schema *)
(* ================================================================== *)

Lemma distinct_NoDup (l : list string) : distinct l = true <-> NoDup l.
Proof.
  induction l as [|n l IH]; cbn.
  - split; [constructor | reflexivity].
  - rewrite andb_true_iff, negb_true_iff, IH. split.
    + intros [Hn Hl]. constructor; [|exact Hl]. intros Hin.
      assert (existsb (String.eqb n) l = true); [|congruence].
      apply existsb_exists. exists n. split; [exact Hin|apply String.eqb_refl].
    + intros H. inversion H as [|? ? Hn Hl]; subst. split; [|exact Hl].
      destruct (existsb (String.eqb n) l) eqn:E; [|reflexivity].
      apply existsb_exists in E. destruct E as [x [Hx E]].
      apply String.eqb_eq in E. subst x. contradiction.
Qed.

Lemma has_user_In (u : string) (d : database) :
  has_user u d = true <-> In u (map User.username (users d)).
Proof.
  unfold has_user. rewrite existsb_exists, in_map_iff. split.
  - intros [r [Hr E]]. apply String.eqb_eq in E. now exists r.
  - intros [r [E Hr]]. exists r. split; [exact Hr|]. now apply String.eqb_eq.
Qed.

Lemma consistent_spec (d : database) :
  consistent d = true <->
  NoDup (map User.username (users d))
  /\ forall r, In r (sessions d) ->
               In (Session.username r) (map User.username (users d)).
Proof.
  unfold consistent. rewrite andb_true_iff, distinct_NoDup, forallb_forall.
  split; intros [Hk Hs]; (split; [exact Hk|]); intros r Hr;
    apply has_user_In; now apply Hs.
Qed.

Lemma names_after_delete (u : string) (l : list User.row) :
  map User.username
      (filter (fun r => negb (String.eqb (User.username r) u)) l)
  = filter (fun n => negb (String.eqb n u)) (map User.username l).
Proof. symmetry. apply filter_map_swap. Qed.

Lemma run_consistent (q : statement) (now : Z) (d d' : database) :
  consistent d = true -> run q now d = inl d' -> consistent d' = true.
Proof.
  rewrite !consistent_spec. intros [Hkey Hown].
  destruct q; cbn; unfold insert_user; cbn.
  - destruct (has_user username d) eqn:Hu; [discriminate|]. intros [= <-]. cbn.
    rewrite map_app. cbn. split.
    + apply NoDup_app; [exact Hkey | repeat constructor; intros [] |].
      intros a Ha [<-|[]]. apply has_user_In in Ha. congruence.
    + intros r Hr. apply in_or_app. left. now apply Hown.
  - destruct (has_user username d) eqn:Hu; [discriminate|]. intros [= <-]. cbn.
    rewrite map_app. cbn. split.
    + apply NoDup_app; [exact Hkey | repeat constructor; intros [] |].
      intros a Ha [<-|[]]. apply has_user_In in Ha. congruence.
    + intros r Hr. apply in_or_app. left. now apply Hown.
  - intros [= <-]. cbn. rewrite names_after_delete. split.
    + now apply NoDup_filter.
    + intros r Hr. apply filter_In.
      destruct (has_user username d) eqn:Hu.
      * apply filter_In in Hr. destruct Hr as [Hr Hne]. split; [|exact Hne].
        now apply Hown.
      * split; [now apply Hown|].
        apply negb_true_iff, String.eqb_neq. intros E.
        apply Hown, has_user_In in Hr. congruence.
  - destruct (has_user username d) eqn:Hu; [|discriminate]. intros [= <-]. cbn.
    split; [exact Hkey|]. intros r Hr. apply in_app_or in Hr.
    destruct Hr as [Hr|[<-|[]]]; [now apply Hown|]. now apply has_user_In.
  - intros [= <-]. cbn. split; [exact Hkey|]. intros r Hr.
    apply in_map_iff in Hr. destruct Hr as [s [<- Hs]].
    unfold touch. destruct (String.eqb (Session.auth_token s) auth_token);
      cbn; now apply Hown.
  - intros [= <-]. cbn. split; [exact Hkey|]. intros r Hr.
    apply filter_In in Hr. apply Hown, Hr.
  - intros [= <-]. now split.
  - intros [= <-]. now split.
  - intros [= <-]. now split.
  - intros [= <-]. cbn. split; [exact Hkey|]. intros r Hr.
    apply filter_In in Hr. apply Hown, Hr.
  - intros [= <-]. now split.
  - intros [= <-]. now split.
Qed.

Lemma stays_consistent_refl (w : world) : stays_consistent w w.
Proof. intros H. exact H. Qed.

Lemma stays_consistent_trans (a b c : world) :
  stays_consistent a b -> stays_consistent b c -> stays_consistent a c.
Proof. unfold stays_consistent. auto. Qed.

Lemma execute_consistent (q : statement) : keeps stays_consistent (execute q).
Proof.
  intros w. unfold stays_consistent, after, execute, consistent_world.
  destruct (db w) as [d|] eqn:Hdb; cbn; [|now rewrite Hdb].
  destruct (run q (clock w) d) as [d'|e] eqn:Hrun; cbn.
  - intros H. now apply (run_consistent q (clock w) d d').
  - now rewrite Hdb.
Qed.

(** X1.  No statement the program prepares breaks the constraints of its
    schema: run on a database in which usernames are a key of [users]
    and every session belongs to a user, a statement that succeeds
    leaves such a database. *)
Theorem statements_keep_schema_constraints
    (q : statement) (now : Z) (d d' : database) :
  consistent d = true -> run q now d = inl d' -> consistent d' = true.
Proof. apply run_consistent. Qed.

Lemma statements_keep_schema_constraints_witness :
  consistent
    {| users := [User.mk "admin" "DEFAULT PASSWORD HASH" true];
       sessions := []; invites := []; logs := [] |} = true.
Proof.
  apply (statements_keep_schema_constraints (DeleteUser "alice") 1793001600000
           {| users := [User.mk "admin" "DEFAULT PASSWORD HASH" true;
                        User.mk "alice" "hash(s3cret)" false];
              sessions := [Session.mk "5a5a" "alice" (Some "2026-10-26 08:00:00")];
              invites := []; logs := [] |}).
  - reflexivity.
  - reflexivity.
Defined.

(** X2.  Every request, whatever its route, body and random draws, and
    every housekeeping sweep leaves a consistent database consistent. *)
Theorem requests_keep_schema_constraints
    (hashSync : string -> Z -> list Byte.byte -> string)
    (compareSync : string -> string -> bool)
    (r : route) (salt drawn : list Byte.byte) (b : body) (w : world) :
  consistent_world w = true ->
  consistent_world (after (backend hashSync compareSync r salt drawn b) w) = true
  /\ consistent_world (after clean_database w) = true.
Proof.
  intros Hw. split.
  - apply (keeps_backend stays_consistent stays_consistent_refl
             stays_consistent_trans (fun q _ => execute_consistent q)
             hashSync compareSync r salt drawn b w Hw).
  - revert Hw. change (stays_consistent w (after clean_database w)).
    revert w. change (keeps stays_consistent clean_database).
    unfold clean_database, current_time_iso.
    apply (keeps_bind stays_consistent stays_consistent_trans).
    + intros w. apply stays_consistent_refl.
    + intros t.
      repeat (apply (keeps_bind stays_consistent stays_consistent_trans);
              [apply execute_consistent | intros _]).
      apply execute_consistent.
Qed.

Lemma requests_keep_schema_constraints_witness :
  consistent_world
    (after (backend demo_hashSync demo_compareSync Signup [] token_bytes
              (signup_body "alice" "s3cret" "ab12cd")) invite_issued) = true
  /\ consistent_world (after clean_database invite_issued) = true.
Proof.
  apply (requests_keep_schema_constraints demo_hashSync demo_compareSync
           Signup [] token_bytes (signup_body "alice" "s3cret" "ab12cd")
           invite_issued).
  reflexivity.
Defined.

(* ================================================================== *)
(** * The audit trail and the administrators under requests *)
(* ================================================================== *)

Lemma trail_extended_refl (w : world) : trail_extended w w.
Proof. exists []. now rewrite app_nil_r. Qed.

Lemma trail_extended_trans (a b c : world) :
  trail_extended a b -> trail_extended b c -> trail_extended a c.
Proof.
  intros [x Hx] [y Hy]. exists (x ++ y)%list. now rewrite Hy, Hx, app_assoc.
Qed.

Lemma execute_extends_trail (q : statement) :
  route_statement q = true -> keeps trail_extended (execute q).
Proof.
  intros Hq w. unfold trail_extended, after, execute, audit_trail.
  destruct (db w) as [d|] eqn:Hdb; cbn;
    [|rewrite Hdb; exists []; reflexivity].
  destruct q; try discriminate; cbn; unfold insert_user;
    try (destruct (has_user _ d)); cbn; rewrite ?Hdb;
    try (exists []; now rewrite app_nil_r).
  eexists. reflexivity.
Qed.

(** X3.  No request removes or rewrites an audit entry: after any
    request the log is the log before it, with the new entries at the
    end. *)
Theorem requests_only_append_to_log
    (hashSync : string -> Z -> list Byte.byte -> string)
    (compareSync : string -> string -> bool)
    (r : route) (salt drawn : list Byte.byte) (b : body) (w : world) :
  exists added,
    audit_trail (after (backend hashSync compareSync r salt drawn b) w)
    = (audit_trail w ++ added)%list.
Proof.
  apply (keeps_backend trail_extended trail_extended_refl trail_extended_trans
           execute_extends_trail).
Qed.

Lemma no_admin_made_refl (w : world) : no_admin_made w w.
Proof. intros r Hr. exact Hr. Qed.

Lemma no_admin_made_trans (a b c : world) :
  no_admin_made a b -> no_admin_made b c -> no_admin_made a c.
Proof. unfold no_admin_made. auto. Qed.

Lemma execute_makes_no_admin (q : statement) :
  route_statement q = true -> keeps no_admin_made (execute q).
Proof.
  intros Hq w r. unfold after, execute, admins.
  destruct (db w) as [d|] eqn:Hdb; cbn; [|now rewrite Hdb].
  destruct q; try discriminate; cbn; unfold insert_user;
    try (destruct (has_user _ d)); cbn; rewrite ?Hdb; try tauto.
  - rewrite filter_app. cbn. now rewrite app_nil_r.
  - rewrite !filter_In. intros [[Hr _] Ha]. now split.
Qed.

(** X4.  No request makes an administrator: a user row flagged
    [is_admin] after a request was there, flagged, before it. *)
Theorem requests_make_no_admin
    (hashSync : string -> Z -> list Byte.byte -> string)
    (compareSync : string -> string -> bool)
    (r : route) (salt drawn : list Byte.byte) (b : body) (w : world)
    (row : User.row) :
  In row (admins (after (backend hashSync compareSync r salt drawn b) w)) ->
  In row (admins w).
Proof.
  apply (keeps_backend no_admin_made no_admin_made_refl no_admin_made_trans
           execute_makes_no_admin).
Qed.

Lemma requests_make_no_admin_witness :
  In (User.mk "admin" "DEFAULT PASSWORD HASH" true) (admins invite_issued).
Proof.
  apply (requests_make_no_admin demo_hashSync demo_compareSync Signup []
           token_bytes (signup_body "alice" "s3cret" "ab12cd") invite_issued).
  left. reflexivity.
Defined.

Lemma admin_account_kept_refl (w : world) : admin_account_kept w w.
Proof. intros H. exact H. Qed.

Lemma admin_account_kept_trans (a b c : world) :
  admin_account_kept a b -> admin_account_kept b c -> admin_account_kept a c.
Proof. unfold admin_account_kept. auto. Qed.

Lemma execute_keeps_admin_account (q : statement) :
  route_statement q = true -> keeps admin_account_kept (execute q).
Proof.
  intros Hq w. unfold admin_account_kept, after, execute, user_exists.
  destruct (db w) as [d|] eqn:Hdb; cbn; [|now rewrite Hdb].
  intros Hadmin.
  destruct (run q (clock w) d) as [d'|e] eqn:Hrun; cbn; [|now rewrite Hdb].
  destruct q; try discriminate; cbn in Hrun; unfold insert_user in Hrun;
    cbn in Hrun;
    try (destruct (has_user username d) eqn:Hu; try discriminate);
    inversion Hrun; subst d'; clear Hrun; try exact Hadmin.
  - unfold has_user in *. cbn. rewrite existsb_app, Hadmin. reflexivity.
  - unfold has_user in *. cbn. apply existsb_exists in Hadmin.
    destruct Hadmin as [x [Hx E]]. apply existsb_exists. exists x.
    split; [|exact E]. apply filter_In. split; [exact Hx|].
    apply String.eqb_eq in E. rewrite E, String.eqb_sym. exact Hq.
  - unfold has_user in *. cbn. apply existsb_exists in Hadmin.
    destruct Hadmin as [x [Hx E]]. apply existsb_exists. exists x.
    split; [|exact E]. apply filter_In. split; [exact Hx|].
    apply String.eqb_eq in E. rewrite E, String.eqb_sym. exact Hq.
Qed.

(** X5.  The account named [admin] outlives every request: the
    delete-user route refuses that name, and no other route deletes a
    user. *)
Theorem requests_keep_admin_account
    (hashSync : string -> Z -> list Byte.byte -> string)
    (compareSync : string -> string -> bool)
    (r : route) (salt drawn : list Byte.byte) (b : body) (w : world) :
  user_exists "admin" w = true ->
  user_exists "admin" (after (backend hashSync compareSync r salt drawn b) w)
  = true.
Proof.
  apply (keeps_backend admin_account_kept admin_account_kept_refl
           admin_account_kept_trans execute_keeps_admin_account).
Qed.

Lemma requests_keep_admin_account_witness :
  user_exists "admin"
    (after (backend demo_hashSync demo_compareSync DeleteUserRoute [] []
              {| req_username := Some "admin"; req_password := None;
                 req_invite_code := None;
                 req_auth_token := Some (hex token_bytes) |})
           (after (create_session token_bytes "admin") first_start)) = true.
Proof.
  apply (requests_keep_admin_account demo_hashSync demo_compareSync
           DeleteUserRoute [] []).
  reflexivity.
Defined.

(* ================================================================== *)
(** * The operations of [auth.js] on an open database *)
(* ================================================================== *)

Lemma find_app_absent {R} (p : R -> bool) (l : list R) (r : R) :
  existsb p l = false -> p r = true -> find p (l ++ [r]) = Some r.
Proof.
  induction l as [|x l IH]; cbn; intros Hl Hr.
  - now rewrite Hr.
  - apply orb_false_iff in Hl. destruct Hl as [Hx Hl]. rewrite Hx. now apply IH.
Qed.

Lemma find_app_present {R} (p : R -> bool) (l : list R) (r x : R) :
  find p l = Some x -> find p (l ++ [r]) = Some x.
Proof.
  induction l as [|y l IH]; cbn; [discriminate|].
  destruct (p y); [trivial | exact IH].
Qed.

Lemma check_password_known (compareSync : string -> string -> bool)
    (u p : string) (w : world) (d : database) (r : User.row) :
  db w = Some d -> select (UserByName u) d = Some r ->
  check_password compareSync u p w
  = (Returned (compareSync p (User.password r)), w).
Proof.
  intros Hdb Hsel. unfold check_password, bind, get_row. rewrite Hdb, Hsel.
  cbn. now destruct (compareSync p (User.password r)).
Qed.

Lemma check_admin_known (u : string) (w : world) (d : database) (r : User.row) :
  db w = Some d -> select (UserByName u) d = Some r ->
  check_admin u w = (Returned (User.is_admin r), w).
Proof.
  intros Hdb Hsel. unfold check_admin, bind, get_row. now rewrite Hdb, Hsel.
Qed.

Lemma create_session_known (drawn : list Byte.byte) (u : string)
    (w : world) (d : database) :
  db w = Some d -> has_user u d = true ->
  create_session drawn u w =
  (Returned (hex drawn),
   with_db w
     {| users := users d;
        sessions := sessions d
                    ++ [Session.mk (hex drawn) u
                          (Some (CURRENT_TIMESTAMP (clock w)))];
        invites := invites d;
        logs := logs d
                ++ [Log.mk ("Created new session for '" ++ u ++ "'.")
                           (Some (CURRENT_TIMESTAMP (clock w)))] |}).
Proof.
  intros Hdb Hu. unfold create_session, bind, log.
  rewrite (execute_open _ w d Hdb). cbn [run]. rewrite Hu.
  erewrite execute_open by reflexivity. reflexivity.
Qed.

Lemma create_session_unknown (drawn : list Byte.byte) (u : string)
    (w : world) (d : database) :
  db w = Some d -> has_user u d = false ->
  create_session drawn u w = (Threw (SqliteError ForeignKeyConstraint), w).
Proof.
  intros Hdb Hu. unfold create_session, bind.
  rewrite (execute_open _ w d Hdb). cbn [run]. now rewrite Hu.
Qed.

Lemma create_user_fresh (hashSync : string -> Z -> list Byte.byte -> string)
    (salt : list Byte.byte) (u p c : string) (w : world) (d : database) :
  db w = Some d -> has_user u d = false ->
  create_user hashSync salt u p c w =
  (Returned tt,
   with_db w
     {| users := users d ++ [User.mk u (hashSync p 12 salt) false];
        sessions := sessions d;
        invites := filter (fun r => negb (String.eqb (Invite.invite_code r) c))
                          (invites d);
        logs := logs d
                ++ [Log.mk ("Created new user '" ++ u
                            ++ "', used invite code '" ++ c ++ "'.")
                           (Some (CURRENT_TIMESTAMP (clock w)))] |}).
Proof.
  intros Hdb Hu. unfold create_user, bind, log.
  rewrite (execute_open _ w d Hdb). cbn [run].
  erewrite execute_open by reflexivity. cbn [run]. unfold insert_user.
  cbn [User.username users sessions invites logs with_db clock].
  change (has_user u _) with (has_user u d). rewrite Hu.
  erewrite execute_open by reflexivity. reflexivity.
Qed.

Lemma has_user_after_insert (u : string) (row : User.row) (l : list User.row) :
  User.username row = u ->
  existsb (fun r => String.eqb (User.username r) u) (l ++ [row]) = true.
Proof.
  intros <-. rewrite existsb_app_one, String.eqb_refl. apply orb_true_r.
Qed.

(* ================================================================== *)
(** * Sign-in and sign-up, every outcome *)
(* ================================================================== *)

(** X6.  A sign-in request whose fields are text (or missing) always
    gets an answer, never a 500: 200, 400, 401 or 404.  Anything but a 200 leaves the world untouched; a 200
    carries the token drawn, and a session with that token is then on
    record. *)
Theorem signin_outcome
    (compareSync : string -> string -> bool)
    (drawn : list Byte.byte) (b : body) (w : world) :
  exists r w',
    signin compareSync drawn b w = (Returned r, w')
    /\ (status r = 200 \/ status r = 400 \/ status r = 401 \/ status r = 404)
    /\ (status r <> 200 -> w' = w)
    /\ (status r = 200 ->
        data r = [("auth_token", hex drawn)]
        /\ has_session (hex drawn) w' = true).
Proof.
  unfold signin, try_catch, bind.
  destruct (given (req_username b)) as [u|];
    [|eexists; eexists; split; [reflexivity|]; cbn; intuition discriminate].
  destruct (given (req_password b)) as [p|];
    [|eexists; eexists; split; [reflexivity|]; cbn; intuition discriminate].
  destruct (db w) as [d|] eqn:Hdb.
  - rewrite (check_username_has_user u w d Hdb).
    destruct (has_user u d) eqn:Hu; cbn [negb];
      [|eexists; eexists; split; [reflexivity|]; cbn; intuition discriminate].
    destruct (select_user_present u d Hu) as [row Hrow].
    rewrite (check_password_known compareSync u p w d row Hdb Hrow).
    destruct (compareSync p (User.password row)); cbn [negb];
      [|eexists; eexists; split; [reflexivity|]; cbn; intuition discriminate].
    rewrite (create_session_known drawn u w d Hdb Hu).
    eexists; eexists; split; [reflexivity|]. cbn.
    split; [now left|]. split; [intros H; now elim H|]. intros _.
    split; [reflexivity|]. rewrite existsb_app_one. cbn.
    rewrite String.eqb_refl. apply orb_true_r.
  - rewrite (check_username_closed u w Hdb). cbn [negb].
    eexists; eexists; split; [reflexivity|]; cbn; intuition discriminate.
Qed.

(** X7.  A sign-up request whose fields are text (or missing) is
    answered with 200 or 400, never a 500.  A
    400 leaves the world untouched: in particular a refused sign-up does
    not consume the invite.  A 200 happens only for a username that is
    alphanumeric, at most 32 characters long and not taken, with a code
    some invite row carries; afterwards the user exists, the code is
    gone and the token drawn is in the answer. *)
Theorem signup_outcome
    (hashSync : string -> Z -> list Byte.byte -> string)
    (salt drawn : list Byte.byte) (b : body) (w : world) :
  exists r w',
    signup hashSync salt drawn b w = (Returned r, w')
    /\ (status r = 200 \/ status r = 400)
    /\ (status r <> 200 -> w' = w)
    /\ (status r = 200 ->
        exists u c,
          req_username b = Some u /\ req_invite_code b = Some c
          /\ is_alphanumeric u = true
          /\ (String.length u <= 32)%nat
          /\ user_exists u w = false /\ has_invite c w = true
          /\ user_exists u w' = true /\ has_invite c w' = false
          /\ has_session (hex drawn) w' = true
          /\ data r = [("auth_token", hex drawn)]).
Proof.
  unfold signup, try_catch, bind.
  destruct (given (req_username b)) as [u|] eqn:Hgu;
    [|eexists; eexists; split; [reflexivity|]; cbn; intuition discriminate].
  destruct (given (req_password b)) as [p|];
    [|eexists; eexists; split; [reflexivity|]; cbn; intuition discriminate].
  destruct (given (req_invite_code b)) as [c|] eqn:Hgc;
    [|eexists; eexists; split; [reflexivity|]; cbn; intuition discriminate].
  destruct (is_alphanumeric u) eqn:Halnum; cbn [negb orb];
    [|eexists; eexists; split; [reflexivity|]; cbn; intuition discriminate].
  destruct (is_between_lengths u 1 32) eqn:Hlen; cbn [negb];
    [|eexists; eexists; split; [reflexivity|]; cbn; intuition discriminate].
  destruct (db w) as [d|] eqn:Hdb.
  - rewrite (check_username_has_user u w d Hdb).
    destruct (has_user u d) eqn:Hu;
      [eexists; eexists; split; [reflexivity|]; cbn; intuition discriminate|].
    rewrite check_invite_code_has_invite.
    destruct (has_invite c w) eqn:Hinv; cbn [negb];
      [|eexists; eexists; split; [reflexivity|]; cbn; intuition discriminate].
    rewrite (create_user_fresh hashSync salt u p c w d Hdb Hu).
    erewrite create_session_known;
      [| reflexivity | now apply has_user_after_insert].
    eexists; eexists; split; [reflexivity|]. cbn.
    split; [now left|]. split; [intros H; now elim H|]. intros _.
    exists u, c.
    assert (Hfield : forall f x, given f = Some x -> f = Some x).
    { intros [[|a f]|] x; cbn; congruence. }
    split; [now apply Hfield|]. split; [now apply Hfield|].
    split; [exact Halnum|].
    split. { unfold is_between_lengths in Hlen.
             apply andb_true_iff in Hlen. now apply Nat.leb_le. }
    unfold user_exists, has_invite in *. rewrite Hdb in *.
    split; [exact Hu|]. split; [exact Hinv|].
    split; [now apply has_user_after_insert|].
    split.
    { apply (existsb_deleted (fun r => String.eqb (Invite.invite_code r) c)). }
    split; [|reflexivity].
    rewrite existsb_app_one. cbn. rewrite String.eqb_refl. apply orb_true_r.
  - rewrite (check_username_closed u w Hdb).
    rewrite check_invite_code_has_invite. unfold has_invite. rewrite Hdb.
    cbn [negb].
    eexists; eexists; split; [reflexivity|]; cbn; intuition discriminate.
Qed.

Lemma signup_success
    (hashSync : string -> Z -> list Byte.byte -> string)
    (salt drawn : list Byte.byte) (u p c : string) (w : world) (d : database) :
  db w = Some d ->
  is_alphanumeric u = true ->
  is_between_lengths u 1 32 = true ->
  has_user u d = false ->
  p <> "" -> c <> "" ->
  has_invite c w = true ->
  signup hashSync salt drawn (signup_body u p c) w =
  (Returned (response_message 200 "Signed up successfully."
               [("auth_token", hex drawn)]),
   with_db w
     {| users := users d ++ [User.mk u (hashSync p 12 salt) false];
        sessions := sessions d
                    ++ [Session.mk (hex drawn) u
                          (Some (CURRENT_TIMESTAMP (clock w)))];
        invites := filter (fun r => negb (String.eqb (Invite.invite_code r) c))
                          (invites d);
        logs := (logs d
                 ++ [Log.mk ("Created new user '" ++ u
                             ++ "', used invite code '" ++ c ++ "'.")
                            (Some (CURRENT_TIMESTAMP (clock w)))])
                ++ [Log.mk ("Created new session for '" ++ u ++ "'.")
                           (Some (CURRENT_TIMESTAMP (clock w)))] |}).
Proof.
  intros Hdb Halnum Hlen Hfree Hp Hc Hinv.
  unfold signup, signup_body, try_catch, bind.
  cbn [req_username req_password req_invite_code].
  rewrite (given_nonempty u (is_alphanumeric_nonempty u Halnum)).
  rewrite (given_nonempty p Hp), (given_nonempty c Hc).
  rewrite Halnum, Hlen. cbn [negb orb].
  rewrite (check_username_has_user u w d Hdb), Hfree.
  rewrite check_invite_code_has_invite, Hinv. cbn [negb].
  rewrite (create_user_fresh hashSync salt u p c w d Hdb Hfree).
  erewrite create_session_known;
    [| reflexivity | now apply has_user_after_insert].
  reflexivity.
Qed.

(** X8.  Sign-up and sign-in fit together.  After a successful sign-up
    of [u] with password [p] (the hash check accepting [p] against the
    hash stored), [u] exists, is not an administrator, a sign-in with
    [p] succeeds, and a sign-in with a password the hash check rejects
    gets a 401 and changes nothing. *)
Theorem signup_then_signin
    (hashSync : string -> Z -> list Byte.byte -> string)
    (compareSync : string -> string -> bool)
    (salt drawn drawn' : list Byte.byte) (u p c : string)
    (w : world) (d : database) :
  db w = Some d ->
  is_alphanumeric u = true ->
  is_between_lengths u 1 32 = true ->
  has_user u d = false ->
  p <> "" -> c <> "" ->
  has_invite c w = true ->
  compareSync p (hashSync p 12 salt) = true ->
  let w1 := after (signup hashSync salt drawn (signup_body u p c)) w in
  check_username u w1 = (Returned true, w1)
  /\ check_admin u w1 = (Returned false, w1)
  /\ check_password compareSync u p w1 = (Returned true, w1)
  /\ (exists w2,
        signin compareSync drawn' (signin_body u p) w1
        = (Returned (response_message 200 "Signed in successfully."
                       [("auth_token", hex drawn')]), w2))
  /\ (forall p', p' <> "" -> compareSync p' (hashSync p 12 salt) = false ->
        signin compareSync drawn' (signin_body u p') w1
        = (Returned (response_message 401 "Incorrect password." []), w1)).
Proof.
  intros Hdb Halnum Hlen Hfree Hp Hc Hinv Hhash w1.
  unfold w1, after.
  rewrite (signup_success hashSync salt drawn u p c w d Hdb Halnum Hlen Hfree
             Hp Hc Hinv). cbn [snd].
  set (d1 := {| users := users d ++ [User.mk u (hashSync p 12 salt) false];
                sessions := _; invites := _; logs := _ |}).
  assert (Hdb1 : db (with_db w d1) = Some d1) by reflexivity.
  assert (Hu1 : has_user u d1 = true) by now apply has_user_after_insert.
  assert (Hrow : select (UserByName u) d1
                 = Some (User.mk u (hashSync p 12 salt) false)).
  { apply find_app_absent; [exact Hfree | apply String.eqb_refl]. }
  assert (Hname : check_username u (with_db w d1)
                  = (Returned true, with_db w d1)).
  { rewrite (check_username_has_user u _ d1 Hdb1). now rewrite Hu1. }
  pose proof (is_alphanumeric_nonempty u Halnum) as Hne.
  split; [exact Hname|].
  split; [now rewrite (check_admin_known u _ d1 _ Hdb1 Hrow)|].
  split.
  { rewrite (check_password_known compareSync u p _ d1 _ Hdb1 Hrow).
    cbn. now rewrite Hhash. }
  split.
  - unfold signin, signin_body, try_catch, bind.
    cbn [req_username req_password].
    rewrite (given_nonempty u Hne), (given_nonempty p Hp), Hname. cbn [negb].
    rewrite (check_password_known compareSync u p _ d1 _ Hdb1 Hrow).
    cbn [User.password]. rewrite Hhash. cbn [negb].
    rewrite (create_session_known drawn' u _ d1 Hdb1 Hu1).
    eexists. reflexivity.
  - intros p' Hp' Hbad.
    unfold signin, signin_body, try_catch, bind.
    cbn [req_username req_password].
    rewrite (given_nonempty u Hne), (given_nonempty p' Hp'), Hname.
    cbn [negb].
    rewrite (check_password_known compareSync u p' _ d1 _ Hdb1 Hrow).
    cbn [User.password]. rewrite Hbad. reflexivity.
Qed.

Lemma signup_then_signin_witness :
  let w1 := after (signup demo_hashSync [] token_bytes
                     (signup_body "alice" "s3cret" "ab12cd")) invite_issued in
  check_username "alice" w1 = (Returned true, w1)
  /\ check_admin "alice" w1 = (Returned false, w1)
  /\ check_password demo_compareSync "alice" "s3cret" w1 = (Returned true, w1)
  /\ (exists w2,
        signin demo_compareSync [Byte.x01] (signin_body "alice" "s3cret") w1
        = (Returned (response_message 200 "Signed in successfully."
                       [("auth_token", hex [Byte.x01])]), w2))
  /\ (forall p', p' <> "" ->
        demo_compareSync p' (demo_hashSync "s3cret" 12 []) = false ->
        signin demo_compareSync [Byte.x01] (signin_body "alice" p') w1
        = (Returned (response_message 401 "Incorrect password." []), w1)).
Proof.
  apply (signup_then_signin demo_hashSync demo_compareSync [] token_bytes
           [Byte.x01] "alice" "s3cret" "ab12cd" invite_issued
           {| users := [User.mk "admin" "DEFAULT PASSWORD HASH" true];
              sessions := [];
              invites := [Invite.mk "ab12cd" (Some "2026-11-02 08:00:00")];
              logs := [Log.mk "Created new invite code 'ab12cd'."
                              (Some "2026-10-26 08:00:00")] |});
    try reflexivity; discriminate.
Defined.

(* ================================================================== *)
(** * The routes behind the [auth] and [admin] middleware *)
(* ================================================================== *)

Lemma given_some (f : option string) (x : string) :
  given f = Some x -> f = Some x /\ x <> "".
Proof. destruct f as [[|a f]|]; cbn; intros [= <-]; split; congruence. Qed.

Lemma check_session_known (t : string) (w : world) (d : database)
    (s : Session.row) :
  db w = Some d -> select (SessionByToken t) d = Some s ->
  check_session t w =
  (Returned (Some (Session.username s)),
   with_db w {| users := users d;
                sessions := map (touch (clock w) t) (sessions d);
                invites := invites d; logs := logs d |}).
Proof.
  intros Hdb Hsel. unfold check_session, bind, get_row. rewrite Hdb, Hsel.
  cbn [truthy]. now rewrite (execute_open _ w d Hdb).
Qed.

Lemma delete_session_known (t : string) (w : world) (d : database)
    (s : Session.row) :
  db w = Some d -> select (SessionByToken t) d = Some s ->
  delete_session t w =
  (Returned tt,
   with_db w {| users := users d;
                sessions :=
                  filter (fun r => negb (String.eqb (Session.auth_token r) t))
                         (sessions d);
                invites := invites d;
                logs := logs d
                        ++ [Log.mk ("Deleted session for '"
                                    ++ Session.username s ++ "'.")
                                   (Some (CURRENT_TIMESTAMP (clock w)))] |}).
Proof.
  intros Hdb Hsel. unfold delete_session, get_username, bind, get_row, log.
  rewrite Hdb, Hsel. cbn [prop ret].
  rewrite (execute_open _ w d Hdb). cbn [run].
  now erewrite execute_open by reflexivity.
Qed.

Lemma auth_rejects (b : body) (w : world) :
  (forall t, req_auth_token b = Some t -> has_session t w = false) ->
  exists resp,
    (status resp = 400 \/ status resp = 401)
    /\ forall next, auth b next w = (Returned resp, w).
Proof.
  intros Hnone. unfold auth, try_catch, bind.
  destruct (given (req_auth_token b)) as [t|] eqn:Ht.
  - apply given_some in Ht. destruct Ht as [Ht _].
    specialize (Hnone t Ht). rewrite has_session_find in Hnone.
    destruct (session_for t w) eqn:Hs; [discriminate|].
    rewrite (check_session_unresolved t w Hs). cbn.
    exists (response_message 401 "Invalid authentication token." []).
    split; [right; reflexivity|]. reflexivity.
  - exists invalid_request_error. split; [left; reflexivity|]. reflexivity.
Qed.

Lemma auth_admits (b : body) (next : string -> js response) (t : string)
    (w : world) (d : database) (s : Session.row) :
  req_auth_token b = Some t -> t <> "" ->
  db w = Some d -> select (SessionByToken t) d = Some s ->
  Session.username s <> "" ->
  auth b next w =
  try_catch
    (next (Session.username s)) (ret server_error)
    (with_db w {| users := users d;
                  sessions := map (touch (clock w) t) (sessions d);
                  invites := invites d; logs := logs d |}).
Proof.
  intros Hb Ht Hdb Hsel Hname. unfold auth, try_catch, bind.
  rewrite Hb, (given_nonempty t Ht).
  rewrite (check_session_known t w d s Hdb Hsel).
  now rewrite (given_nonempty _ Hname).
Qed.

(** X9.  Sign-out, invite creation and user deletion are out of reach
    without a session on record: for a request with text fields, when
    the token is missing, empty or a text that no session carries, the
    answer is a 400 or a 401, the handler behind the middleware is not
    run and the world is left as it was. *)
Theorem authenticated_routes_need_a_session
    (hashSync : string -> Z -> list Byte.byte -> string)
    (compareSync : string -> string -> bool)
    (r : route) (salt drawn : list Byte.byte) (b : body) (w : world) :
  r <> Signin -> r <> Signup ->
  (forall t, req_auth_token b = Some t -> has_session t w = false) ->
  exists resp,
    backend hashSync compareSync r salt drawn b w = (Returned resp, w)
    /\ (status resp = 400 \/ status resp = 401).
Proof.
  intros Hin Hup Hnone.
  destruct (auth_rejects b w Hnone) as [resp [Hstatus Hauth]].
  exists resp. split; [|exact Hstatus].
  destruct r; try contradiction; cbn [backend];
    unfold signout, create_invite_code_route, delete_user_route; apply Hauth.
Qed.

Lemma authenticated_routes_need_a_session_witness :
  exists resp,
    backend demo_hashSync demo_compareSync CreateInviteCode []
      [Byte.xab; Byte.x12; Byte.xcd]
      {| req_username := None; req_password := None; req_invite_code := None;
         req_auth_token := Some "0000" |} alice_signed_up
    = (Returned resp, alice_signed_up)
    /\ (status resp = 400 \/ status resp = 401).
Proof.
  apply authenticated_routes_need_a_session.
  - discriminate.
  - discriminate.
  - intros t [= <-]. reflexivity.
Defined.

(** X10.  Sign-out revokes the token.  For a token that resolves to a
    session of a named user, the route answers 200; afterwards no session
    carries the token, the same request is answered 401, and the users
    and invites are as before. *)
Theorem signout_revokes_token
    (b : body) (t : string) (w : world) (d : database) (s : Session.row) :
  req_auth_token b = Some t -> t <> "" ->
  db w = Some d -> select (SessionByToken t) d = Some s ->
  Session.username s <> "" ->
  exists w',
    signout b w
    = (Returned (response_message 200 "Signed out successfully." []), w')
    /\ has_session t w' = false
    /\ check_session t w' = (Returned None, w')
    /\ signout b w'
       = (Returned (response_message 401 "Invalid authentication token." []), w')
    /\ users_of w' = users_of w /\ invites_of w' = invites_of w.
Proof.
  intros Hb Ht Hdb Hsel Hname. unfold signout.
  rewrite (auth_admits b _ t w d s Hb Ht Hdb Hsel Hname).
  unfold try_catch at 1 2. rewrite Hb. unfold bind.
  erewrite delete_session_known;
    [| reflexivity
     | cbn [select sessions]; rewrite find_touch;
       cbn [select] in Hsel; rewrite Hsel; reflexivity ].
  eexists. split; [reflexivity|].
  match goal with |- has_session t ?x = false /\ _ => set (w1 := x) end.
  assert (Hgone : has_session t w1 = false).
  { unfold w1. cbn.
    apply (existsb_deleted (fun r => String.eqb (Session.auth_token r) t)). }
  assert (Hnone : session_for t w1 = None).
  { rewrite has_session_find in Hgone. now destruct (session_for t w1). }
  split; [exact Hgone|].
  split; [now apply check_session_unresolved|].
  split.
  - unfold auth, try_catch, bind. rewrite Hb, (given_nonempty t Ht).
    now rewrite (check_session_unresolved t w1 Hnone).
  - unfold users_of, invites_of, w1. cbn. now rewrite Hdb.
Qed.

Lemma signout_revokes_token_witness :
  exists w',
    signout {| req_username := None; req_password := None;
               req_invite_code := None;
               req_auth_token := Some (hex token_bytes) |} alice_signed_up
    = (Returned (response_message 200 "Signed out successfully." []), w')
    /\ has_session (hex token_bytes) w' = false
    /\ check_session (hex token_bytes) w' = (Returned None, w')
    /\ signout {| req_username := None; req_password := None;
                  req_invite_code := None;
                  req_auth_token := Some (hex token_bytes) |} w'
       = (Returned (response_message 401 "Invalid authentication token." []), w')
    /\ users_of w' = users_of alice_signed_up
    /\ invites_of w' = invites_of alice_signed_up.
Proof.
  destruct (db alice_signed_up) as [d|] eqn:Hdb; [|discriminate].
  apply (signout_revokes_token _ (hex token_bytes) alice_signed_up d
           (Session.mk (hex token_bytes) "alice" (Some "2026-10-26 08:00:00"))).
  - reflexivity.
  - discriminate.
  - exact Hdb.
  - vm_compute in Hdb. injection Hdb as <-. reflexivity.
  - discriminate.
Defined.

Lemma admin_passes (u : string) (next : js response) (w : world)
    (d : database) (row : User.row) :
  db w = Some d -> select (UserByName u) d = Some row ->
  admin u next w =
  if User.is_admin row
  then try_catch next (ret server_error) w
  else (Returned (response_message 403 "Insufficient permissions." []), w).
Proof.
  intros Hdb Hsel. unfold admin, try_catch at 1, bind.
  rewrite (check_admin_known u w d row Hdb Hsel).
  destruct (User.is_admin row); reflexivity.
Qed.

(** X11.  Invite creation and user deletion are refused to a session
    whose user is not an administrator: the answer is 403, and users,
    invites and the audit log are left as they were (the middleware has
    only refreshed the session). *)
Theorem admin_routes_refuse_other_users
    (hashSync : string -> Z -> list Byte.byte -> string)
    (compareSync : string -> string -> bool)
    (r : route) (salt drawn : list Byte.byte) (b : body) (t : string)
    (w : world) (d : database) (s : Session.row) (row : User.row) :
  r = CreateInviteCode \/ r = DeleteUserRoute ->
  req_auth_token b = Some t -> t <> "" ->
  db w = Some d -> select (SessionByToken t) d = Some s ->
  Session.username s <> "" ->
  select (UserByName (Session.username s)) d = Some row ->
  User.is_admin row = false ->
  exists w',
    backend hashSync compareSync r salt drawn b w
    = (Returned (response_message 403 "Insufficient permissions." []), w')
    /\ users_of w' = users_of w
    /\ invites_of w' = invites_of w
    /\ audit_trail w' = audit_trail w.
Proof.
  intros Hr Hb Ht Hdb Hsel Hname Hrow Hnot.
  assert (Hstep : forall next,
            auth b (fun u => admin u (next u)) w
            = (Returned (response_message 403 "Insufficient permissions." []),
               with_db w {| users := users d;
                            sessions := map (touch (clock w) t) (sessions d);
                            invites := invites d; logs := logs d |})).
  { intros next. rewrite (auth_admits b _ t w d s Hb Ht Hdb Hsel Hname).
    unfold try_catch at 1.
    erewrite admin_passes; [| reflexivity | exact Hrow].
    now rewrite Hnot. }
  eexists. split.
  - destruct Hr as [-> | ->]; cbn [backend];
      unfold create_invite_code_route, delete_user_route.
    + apply (Hstep (fun _ => _)).
    + apply (Hstep (fun _ => _)).
  - unfold users_of, invites_of, audit_trail. cbn. now rewrite Hdb.
Qed.

Lemma admin_routes_refuse_other_users_witness :
  exists w',
    backend demo_hashSync demo_compareSync CreateInviteCode []
      [Byte.xab; Byte.x12; Byte.xcd]
      {| req_username := None; req_password := None; req_invite_code := None;
         req_auth_token := Some (hex token_bytes) |} alice_signed_up
    = (Returned (response_message 403 "Insufficient permissions." []), w')
    /\ users_of w' = users_of alice_signed_up
    /\ invites_of w' = invites_of alice_signed_up
    /\ audit_trail w' = audit_trail alice_signed_up.
Proof.
  destruct (db alice_signed_up) as [d|] eqn:Hdb; [|discriminate].
  apply (admin_routes_refuse_other_users demo_hashSync demo_compareSync
           CreateInviteCode [] [Byte.xab; Byte.x12; Byte.xcd] _
           (hex token_bytes) alice_signed_up d
           (Session.mk (hex token_bytes) "alice" (Some "2026-10-26 08:00:00"))
           (User.mk "alice" "hash(s3cret)" false)).
  - left. reflexivity.
  - reflexivity.
  - discriminate.
  - exact Hdb.
  - vm_compute in Hdb. injection Hdb as <-. reflexivity.
  - discriminate.
  - vm_compute in Hdb. injection Hdb as <-. reflexivity.
  - reflexivity.
Defined.

(** X12.  With the session of an administrator, the delete-user route
    answers a request with text fields by its username alone: 400 when
    it is missing or empty, 403 for [admin], 404 for a name no user
    carries, and otherwise 200, after which the user is gone.  Before a
    200 no user is deleted. *)
Theorem delete_user_route_outcome
    (b : body) (t : string) (w : world) (d : database)
    (s : Session.row) (row : User.row) :
  req_auth_token b = Some t -> t <> "" ->
  db w = Some d -> select (SessionByToken t) d = Some s ->
  Session.username s <> "" ->
  select (UserByName (Session.username s)) d = Some row ->
  User.is_admin row = true ->
  exists resp w',
    delete_user_route b w = (Returned resp, w')
    /\ match given (req_username b) with
       | None => resp = invalid_request_error /\ users_of w' = users_of w
       | Some u =>
           if String.eqb u "admin"
           then resp = response_message 403 "Cannot delete admin account." []
                /\ users_of w' = users_of w
           else if has_user u d
           then resp = response_message 200 "Deleted user successfully." []
                /\ user_exists u w' = false
                /\ (forall r, In r (sessions_of w') -> Session.username r <> u)
           else resp = response_message 404 "User does not exist." []
                /\ users_of w' = users_of w
       end.
Proof.
  intros Hb Ht Hdb Hsel Hname Hrow Hadmin. unfold delete_user_route.
  rewrite (auth_admits b _ t w d s Hb Ht Hdb Hsel Hname).
  unfold try_catch at 1.
  erewrite admin_passes; [| reflexivity | exact Hrow]. rewrite Hadmin.
  unfold try_catch at 1 2.
  destruct (given (req_username b)) as [u|].
  - destruct (String.eqb u "admin") eqn:Hu.
    + eexists; eexists; split; [reflexivity|]. split; [reflexivity|].
      unfold users_of. cbn. now rewrite Hdb.
    + unfold bind.
      erewrite check_username_has_user by reflexivity.
      change (has_user u _) with (has_user u d).
      destruct (has_user u d) eqn:Hexists; cbn [negb].
      * unfold delete_user, bind, log.
        erewrite execute_open by reflexivity. cbn [run].
        erewrite execute_open by reflexivity.
        change (has_user u _) with (has_user u d). rewrite Hexists.
        eexists; eexists; split; [reflexivity|]. split; [reflexivity|].
        split.
        -- unfold user_exists, has_user. cbn.
           apply (existsb_deleted (fun r => String.eqb (User.username r) u)).
        -- unfold sessions_of. cbn. intros r Hr. apply filter_In in Hr.
           destruct Hr as [_ Hr]. now apply negb_true_iff, String.eqb_neq in Hr.
      * eexists; eexists; split; [reflexivity|]. split; [reflexivity|].
        unfold users_of. cbn. now rewrite Hdb.
  - eexists; eexists; split; [reflexivity|]. split; [reflexivity|].
    unfold users_of. cbn. now rewrite Hdb.
Qed.

Lemma delete_user_route_outcome_witness :
  let w := after (create_session [Byte.x01] "admin") alice_signed_up in
  exists resp w',
    delete_user_route
      {| req_username := Some "alice"; req_password := None;
         req_invite_code := None; req_auth_token := Some "01" |} w
    = (Returned resp, w')
    /\ resp = response_message 200 "Deleted user successfully." []
    /\ user_exists "alice" w' = false
    /\ (forall r, In r (sessions_of w') -> Session.username r <> "alice").
Proof.
  apply (delete_user_route_outcome
           {| req_username := Some "alice"; req_password := None;
              req_invite_code := None; req_auth_token := Some "01" |}
           "01" (after (create_session [Byte.x01] "admin") alice_signed_up)
           {| users := [User.mk "admin" "DEFAULT PASSWORD HASH" true;
                        User.mk "alice" "hash(s3cret)" false];
              sessions := [Session.mk (hex token_bytes) "alice"
                                      (Some "2026-10-26 08:00:00");
                           Session.mk "01" "admin" (Some "2026-10-26 08:00:00")];
              invites := [];
              logs := [Log.mk "Created new invite code 'ab12cd'."
                              (Some "2026-10-26 08:00:00");
                       Log.mk "Created new user 'alice', used invite code 'ab12cd'."
                              (Some "2026-10-26 08:00:00");
                       Log.mk "Created new session for 'alice'."
                              (Some "2026-10-26 08:00:00");
                       Log.mk "Created new session for 'admin'."
                              (Some "2026-10-26 08:00:00")] |}
           (Session.mk "01" "admin" (Some "2026-10-26 08:00:00"))
           (User.mk "admin" "DEFAULT PASSWORD HASH" true));
    try reflexivity; discriminate.
Defined.

(** X13.  With the session of an administrator, the create-invite-code
    route answers 200 with the code drawn, and the code passes
    [check_invite_code] from then on; users are left as they were. *)
Theorem admin_creates_invite_code
    (drawn : list Byte.byte) (b : body) (t : string) (w : world)
    (d : database) (s : Session.row) (row : User.row) :
  req_auth_token b = Some t -> t <> "" ->
  db w = Some d -> select (SessionByToken t) d = Some s ->
  Session.username s <> "" ->
  select (UserByName (Session.username s)) d = Some row ->
  User.is_admin row = true ->
  exists w',
    create_invite_code_route drawn b w
    = (Returned (response_message 200 "Created invite code successfully."
                   [("invite_code", hex drawn)]), w')
    /\ check_invite_code (hex drawn) w' = (Returned true, w')
    /\ users_of w' = users_of w.
Proof.
  intros Hb Ht Hdb Hsel Hname Hrow Hadmin. unfold create_invite_code_route.
  rewrite (auth_admits b _ t w d s Hb Ht Hdb Hsel Hname).
  unfold try_catch at 1.
  erewrite admin_passes; [| reflexivity | exact Hrow]. rewrite Hadmin.
  unfold try_catch at 1 2. unfold bind.
  erewrite create_invite_code_open by reflexivity.
  eexists. split; [reflexivity|]. split.
  - rewrite check_invite_code_has_invite. cbn.
    rewrite existsb_app_one. cbn. now rewrite String.eqb_refl, orb_true_r.
  - unfold users_of. cbn. now rewrite Hdb.
Qed.

Lemma admin_creates_invite_code_witness :
  let w := after (create_session [Byte.x01] "admin") first_start in
  exists w',
    create_invite_code_route [Byte.xab; Byte.x12; Byte.xcd]
      {| req_username := None; req_password := None;
         req_invite_code := None; req_auth_token := Some "01" |} w
    = (Returned (response_message 200 "Created invite code successfully."
                   [("invite_code", "ab12cd")]), w')
    /\ check_invite_code "ab12cd" w' = (Returned true, w')
    /\ users_of w' = users_of w.
Proof.
  apply (admin_creates_invite_code [Byte.xab; Byte.x12; Byte.xcd]
           {| req_username := None; req_password := None;
              req_invite_code := None; req_auth_token := Some "01" |}
           "01" (after (create_session [Byte.x01] "admin") first_start)
           {| users := [User.mk "admin" "DEFAULT PASSWORD HASH" true];
              sessions := [Session.mk "01" "admin" (Some "2026-10-26 08:00:00")];
              invites := [];
              logs := [Log.mk "Created new session for 'admin'."
                              (Some "2026-10-26 08:00:00")] |}
           (Session.mk "01" "admin" (Some "2026-10-26 08:00:00"))
           (User.mk "admin" "DEFAULT PASSWORD HASH" true));
    try reflexivity; discriminate.
Defined.

(** X14.  While [db] is unset nothing is served and nothing is written:
    every request with text fields is answered 400, 401 or 404 and
    leaves the world as it was. *)
Theorem unset_handle_serves_nothing
    (hashSync : string -> Z -> list Byte.byte -> string)
    (compareSync : string -> string -> bool)
    (r : route) (salt drawn : list Byte.byte) (b : body) (w : world) :
  db w = None ->
  exists resp,
    backend hashSync compareSync r salt drawn b w = (Returned resp, w)
    /\ (status resp = 400 \/ status resp = 401 \/ status resp = 404).
Proof.
  intros Hdb.
  assert (Hauth : exists resp,
            (status resp = 400 \/ status resp = 401)
            /\ forall next, auth b next w = (Returned resp, w)).
  { apply auth_rejects. intros t _. unfold has_session. now rewrite Hdb. }
  destruct r; cbn [backend].
  - unfold signin, try_catch, bind.
    destruct (given (req_username b)) as [u|];
      [|eexists; split; [reflexivity|]; cbn; tauto].
    destruct (given (req_password b)) as [p|];
      [|eexists; split; [reflexivity|]; cbn; tauto].
    rewrite (check_username_closed u w Hdb). cbn [negb].
    eexists; split; [reflexivity|]; cbn; tauto.
  - unfold signup, try_catch, bind.
    destruct (given (req_username b)) as [u|];
      [|eexists; split; [reflexivity|]; cbn; tauto].
    destruct (given (req_password b)) as [p|];
      [|eexists; split; [reflexivity|]; cbn; tauto].
    destruct (given (req_invite_code b)) as [c|];
      [|eexists; split; [reflexivity|]; cbn; tauto].
    destruct (negb (is_alphanumeric u) || negb (is_between_lengths u 1 32));
      [eexists; split; [reflexivity|]; cbn; tauto|].
    rewrite (check_username_closed u w Hdb).
    rewrite check_invite_code_has_invite. unfold has_invite. rewrite Hdb.
    cbn [negb]. eexists; split; [reflexivity|]; cbn; tauto.
  - destruct Hauth as [resp [Hst Hauth]]. exists resp.
    split; [apply Hauth | tauto].
  - destruct Hauth as [resp [Hst Hauth]]. exists resp.
    split; [apply Hauth | tauto].
  - destruct Hauth as [resp [Hst Hauth]]. exists resp.
    split; [apply Hauth | tauto].
Qed.

Lemma unset_handle_serves_nothing_witness :
  exists resp,
    backend demo_hashSync demo_compareSync Signup [] token_bytes
      (signup_body "alice" "s3cret" "ab12cd")
      {| db := None; clock := 1793001600000 |}
    = (Returned resp, {| db := None; clock := 1793001600000 |})
    /\ (status resp = 400 \/ status resp = 401 \/ status resp = 404).
Proof. apply unset_handle_serves_nothing. reflexivity. Defined.

(* ================================================================== *)
(** * Housekeeping, further *)
(* ================================================================== *)

Lemma filter_twice {R} (p : R -> bool) (l : list R) :
  filter p (filter p l) = filter p l.
Proof. apply forallb_filter_id, forallb_filter. Qed.

Lemma clean_database_closed (w : world) :
  db w = None -> clean_database w = (Returned tt, w).
Proof.
  intros Hdb. unfold clean_database, current_time_iso, bind.
  now rewrite !(execute_closed _ w Hdb).
Qed.

(** X15.  A sweep never throws, only removes rows, and never a user:
    users are left as they were and the sessions, invites and log
    entries kept were all there before.  A second sweep at the same
    clock reading removes nothing more. *)
Theorem clean_database_only_removes (w : world) :
  let w' := after clean_database w in
  fst (clean_database w) = Returned tt
  /\ users_of w' = users_of w
  /\ incl (sessions_of w') (sessions_of w)
  /\ incl (invites_of w') (invites_of w)
  /\ incl (audit_trail w') (audit_trail w)
  /\ after clean_database w' = w'.
Proof.
  unfold after. destruct (db w) as [d|] eqn:Hdb.
  - rewrite (clean_database_open w d Hdb). cbn [fst snd].
    split; [reflexivity|].
    split; [unfold users_of; cbn; now rewrite Hdb|].
    split; [unfold sessions_of; cbn; rewrite Hdb; apply incl_filter|].
    split; [unfold invites_of; cbn; rewrite Hdb; apply incl_filter|].
    split; [unfold audit_trail; cbn; rewrite Hdb; apply incl_filter|].
    erewrite clean_database_open by reflexivity.
    cbn [snd with_db clock users sessions invites logs].
    now rewrite !filter_twice.
  - rewrite (clean_database_closed w Hdb). cbn [fst snd].
    rewrite (clean_database_closed w Hdb).
    repeat split; apply incl_refl.
Qed.

(* ================================================================== *)
(** * What an operation on one key leaves alone *)
(* ================================================================== *)

Lemma find_touch_other (now : Z) (t t' : string) (l : list Session.row) :
  t' <> t ->
  find (fun r => String.eqb (Session.auth_token r) t') (map (touch now t) l)
  = find (fun r => String.eqb (Session.auth_token r) t') l.
Proof.
  intros Hne. induction l as [|s l IH]; [reflexivity|].
  cbn [map find]. rewrite touch_token, IH.
  destruct (String.eqb (Session.auth_token s) t') eqn:E; [|reflexivity].
  apply String.eqb_eq in E. unfold touch.
  destruct (String.eqb (Session.auth_token s) t) eqn:E'; [|reflexivity].
  apply String.eqb_eq in E'. congruence.
Qed.

Lemma find_filter_other {R} (p q : R -> bool) (l : list R) :
  (forall r, p r = true -> q r = true) ->
  find p (filter q l) = find p l.
Proof.
  intros Hpq. induction l as [|r l IH]; [reflexivity|]. cbn.
  destruct (q r) eqn:Hq; cbn.
  - now rewrite IH.
  - destruct (p r) eqn:Hp; [|exact IH]. rewrite (Hpq r Hp) in Hq. discriminate.
Qed.

(** X16.  Validating or deleting the session of one token leaves the
    session every other token resolves to exactly as it was. *)
Theorem other_tokens_untouched (t t' : string) (w : world) :
  t' <> t ->
  session_for t' (after (check_session t) w) = session_for t' w
  /\ session_for t' (after (delete_session t) w) = session_for t' w.
Proof.
  intros Hne. unfold after. split.
  - destruct (db w) as [d|] eqn:Hdb.
    + destruct (select (SessionByToken t) d) as [s|] eqn:Hsel.
      * rewrite (check_session_known t w d s Hdb Hsel).
        unfold session_for. cbn. rewrite Hdb. cbn.
        now apply find_touch_other.
      * rewrite check_session_unresolved; [reflexivity|].
        unfold session_for. now rewrite Hdb.
    + rewrite check_session_unresolved; [reflexivity|].
      unfold session_for. now rewrite Hdb.
  - destruct (db w) as [d|] eqn:Hdb.
    + destruct (select (SessionByToken t) d) as [s|] eqn:Hsel.
      * rewrite (delete_session_known t w d s Hdb Hsel).
        unfold session_for. cbn. rewrite Hdb. cbn.
        apply find_filter_other. intros r E. apply String.eqb_eq in E.
        apply negb_true_iff, String.eqb_neq. congruence.
      * unfold delete_session, get_username, bind, get_row.
        rewrite Hdb, Hsel. reflexivity.
    + unfold delete_session, get_username, bind, get_row.
      rewrite Hdb. reflexivity.
Qed.

Lemma other_tokens_untouched_witness :
  let w := at_clock 1793610000000
             (after (create_session [Byte.x01] "alice") alice_signed_up) in
  (has_session "01" w = true /\ has_session (hex token_bytes) w = true)
  /\ (session_for "01" (after (check_session "01") w)
       = Some (Session.mk "01" "alice" (Some "2026-11-02 09:00:00"))
      /\ has_session "01" (after (delete_session "01") w) = false)
  /\ session_for (hex token_bytes) (after (check_session "01") w)
     = session_for (hex token_bytes) w
  /\ session_for (hex token_bytes) (after (delete_session "01") w)
     = session_for (hex token_bytes) w.
Proof.
  intros w. split; [split; reflexivity|]. split; [split; reflexivity|].
  apply (other_tokens_untouched "01" (hex token_bytes) w). discriminate.
Defined.

Lemma delete_user_open (u : string) (w : world) (d : database) :
  db w = Some d ->
  delete_user u w =
  (Returned tt,
   with_db w
     {| users := filter (fun r => negb (String.eqb (User.username r) u)) (users d);
        sessions :=
          if has_user u d
          then filter (fun r => negb (String.eqb (Session.username r) u))
                      (sessions d)
          else sessions d;
        invites := invites d;
        logs := logs d ++ [Log.mk ("Deleted user '" ++ u ++ "'.")
                                  (Some (CURRENT_TIMESTAMP (clock w)))] |}).
Proof.
  intros Hdb. unfold delete_user, bind, log.
  rewrite (execute_open _ w d Hdb). cbn [run].
  now erewrite execute_open by reflexivity.
Qed.

(** X17.  Deleting user [u] spares everybody else: a user row or a
    session row of another name is there afterwards exactly when it was
    there before, and the invites are left as they were. *)
Theorem delete_user_spares_others (u : string) (w : world) :
  let w' := after (delete_user u) w in
  (forall row, User.username row <> u ->
               (In row (users_of w') <-> In row (users_of w)))
  /\ (forall s, Session.username s <> u ->
                (In s (sessions_of w') <-> In s (sessions_of w)))
  /\ invites_of w' = invites_of w.
Proof.
  unfold after. destruct (db w) as [d|] eqn:Hdb.
  - rewrite (delete_user_open u w d Hdb).
    unfold users_of, sessions_of, invites_of. cbn. rewrite Hdb.
    split; [|split; [|reflexivity]].
    + intros row Hrow. rewrite filter_In. split; [tauto|].
      intros H. split; [exact H|]. now apply negb_true_iff, String.eqb_neq.
    + intros s Hs. destruct (has_user u d); [|tauto].
      rewrite filter_In. split; [tauto|].
      intros H. split; [exact H|]. now apply negb_true_iff, String.eqb_neq.
  - unfold delete_user, bind, log. rewrite !(execute_closed _ w Hdb). cbn.
    repeat split; tauto.
Qed.

(* ================================================================== *)
(** * Issuing sessions *)
(* ================================================================== *)

(** X18.  [create_session] for a username no user row carries does not
    return a token: the insertion violates the foreign key of [sessions],
    the exception leaves the function, and nothing is written, not even
    the log entry. *)
Theorem create_session_needs_user
    (drawn : list Byte.byte) (u : string) (w : world) (d : database) :
  db w = Some d -> has_user u d = false ->
  create_session drawn u w = (Threw (SqliteError ForeignKeyConstraint), w).
Proof. apply create_session_unknown. Qed.

Lemma create_session_needs_user_witness :
  create_session token_bytes "ghost" first_start
  = (Threw (SqliteError ForeignKeyConstraint), first_start).
Proof.
  apply (create_session_needs_user token_bytes "ghost" first_start
           {| users := [User.mk "admin" "DEFAULT PASSWORD HASH" true];
              sessions := []; invites := []; logs := [] |});
    reflexivity.
Defined.

(** X19.  A token issued resolves to its user.  For an existing user and
    a token no session carries yet, [create_session] returns the token,
    [check_session] on it returns the username, and one log entry has
    been appended.  Sessions issued before keep resolving as they did. *)
Theorem create_session_then_check_session
    (drawn : list Byte.byte) (u : string) (w : world) (d : database) :
  db w = Some d -> has_user u d = true ->
  has_session (hex drawn) w = false ->
  let w' := after (create_session drawn u) w in
  create_session drawn u w = (Returned (hex drawn), w')
  /\ fst (check_session (hex drawn) w') = Returned (Some u)
  /\ audit_trail w'
     = (audit_trail w
        ++ [Log.mk ("Created new session for '" ++ u ++ "'.")
                   (Some (CURRENT_TIMESTAMP (clock w)))])%list
  /\ forall t s, session_for t w = Some s -> session_for t w' = Some s.
Proof.
  intros Hdb Hu Hfresh w'. unfold w', after.
  rewrite (create_session_known drawn u w d Hdb Hu). cbn [snd].
  split; [reflexivity|].
  unfold has_session in Hfresh. rewrite Hdb in Hfresh.
  split; [|split].
  - erewrite (check_session_known (hex drawn) _ _
                (Session.mk (hex drawn) u (Some (CURRENT_TIMESTAMP (clock w)))));
      [reflexivity | reflexivity |].
    cbn [select sessions]. apply find_app_absent; [exact Hfresh|].
    apply String.eqb_refl.
  - unfold audit_trail. cbn. now rewrite Hdb.
  - intros t s. unfold session_for. cbn. rewrite Hdb. cbn.
    apply find_app_present.
Qed.

Lemma create_session_then_check_session_witness :
  let w' := after (create_session [Byte.x01] "alice") alice_signed_up in
  create_session [Byte.x01] "alice" alice_signed_up = (Returned "01", w')
  /\ fst (check_session "01" w') = Returned (Some "alice")
  /\ audit_trail w'
     = (audit_trail alice_signed_up
        ++ [Log.mk "Created new session for 'alice'."
                   (Some (CURRENT_TIMESTAMP (clock alice_signed_up)))])%list
  /\ forall t s, session_for t alice_signed_up = Some s ->
                 session_for t w' = Some s.
Proof.
  destruct (db alice_signed_up) as [d|] eqn:Hdb; [|discriminate].
  apply (create_session_then_check_session [Byte.x01] "alice"
           alice_signed_up d Hdb).
  - vm_compute in Hdb. injection Hdb as <-. reflexivity.
  - reflexivity.
Defined.

(* ================================================================== *)
(** * Tokens and codes as text *)
(* ================================================================== *)

Lemma hex_byte_chars (b : Byte.byte) :
  hex_char (hex_digit (Byte.to_N b / 16)) = true
  /\ hex_char (hex_digit (Byte.to_N b mod 16)) = true.
Proof. destruct b; split; reflexivity. Qed.

Lemma unhex_byte (b : Byte.byte) :
  Byte.of_N (16 * hex_value (hex_digit (Byte.to_N b / 16))
             + hex_value (hex_digit (Byte.to_N b mod 16))) = Some b.
Proof. destruct b; reflexivity. Qed.

Lemma unhex_hex (bytes : list Byte.byte) : unhex (hex bytes) = Some bytes.
Proof.
  induction bytes as [|b bytes IH]; [reflexivity|].
  cbn [hex unhex]. now rewrite unhex_byte, IH.
Qed.

(** X20.  The text of a token or invite code has two characters per byte
    drawn, all of them in [0-9a-f], so it passes [is_alphanumeric] when
    any byte was drawn; and different draws give different texts. *)
Theorem hex_text_of_draw (drawn : list Byte.byte) :
  String.length (hex drawn) = (2 * List.length drawn)%nat
  /\ all_chars hex_char (hex drawn) = true
  /\ (drawn <> [] -> is_alphanumeric (hex drawn) = true)
  /\ (forall other, hex drawn = hex other -> drawn = other).
Proof.
  split; [|split; [|split]].
  - induction drawn as [|b l IH]; [reflexivity|].
    cbn [hex String.length List.length]. rewrite IH. lia.
  - induction drawn as [|b l IH]; [reflexivity|]. cbn [hex all_chars].
    destruct (hex_byte_chars b) as [-> ->]. exact IH.
  - intros Hne. destruct drawn as [|b l]; [contradiction|].
    cbn [hex is_alphanumeric].
    assert (Hall : forall s, all_chars hex_char s = true ->
                             all_chars alphanumeric_char s = true).
    { induction s as [|c s IHs]; [reflexivity|]. cbn [all_chars].
      rewrite !andb_true_iff. intros [Hc Hs]. split; [|now apply IHs].
      unfold hex_char, alphanumeric_char in *.
      apply orb_true_iff in Hc. destruct Hc as [Hc|Hc].
      - rewrite Hc. reflexivity.
      - apply andb_true_iff in Hc. destruct Hc as [Hlo Hhi].
        apply N.leb_le in Hlo, Hhi.
        apply orb_true_iff. right. apply andb_true_iff.
        split; apply N.leb_le; lia. }
    apply (Hall (hex (b :: l))).
    cbn [hex all_chars]. destruct (hex_byte_chars b) as [-> ->].
    clear. induction l as [|b l IH]; [reflexivity|]. cbn [hex all_chars].
    destruct (hex_byte_chars b) as [-> ->]. exact IH.
  - intros other E. apply (f_equal unhex) in E. rewrite !unhex_hex in E.
    now injection E.
Qed.

(* ================================================================== *)
(** * [get_rows] and the entry point *)
(* ================================================================== *)

Lemma find_head_of_filter {R} (p : R -> bool) (l : list R) :
  find p l = match filter p l with [] => None | r :: _ => Some r end.
Proof.
  induction l as [|r l IH]; [reflexivity|]. cbn. now destruct (p r).
Qed.

(** X21.  [get_row] hands back the first of the rows [get_rows] hands
    back for the same query, and null when there are none; neither
    writes anything, and with [db] unset both yield undefined. *)
Theorem get_row_is_first_of_get_rows {R} (q : query R) (w : world) :
  match db w with
  | Some d =>
      exists rows,
        get_rows q w = (Returned (Row rows), w)
        /\ get_row q w
           = (Returned match rows with [] => Null | r :: _ => Row r end, w)
  | None =>
      get_rows q w = (Returned Undefined, w)
      /\ get_row q w = (Returned Undefined, w)
  end.
Proof.
  unfold get_rows, get_row. destruct (db w) as [d|]; [|now split].
  exists (select_all q d). split; [reflexivity|].
  destruct q; cbn [select select_all]; rewrite find_head_of_filter;
    now destruct (filter _ _).
Qed.


(* ================================================================== *)
(** * The read-only methods, and validating twice *)
(* ================================================================== *)

(** X23.  The read-only methods write nothing.  [check_username] and
    [check_invite_code] always return; [check_password], [check_admin]
    and [get_username] return exactly when their row is on record and
    otherwise throw a TypeError. *)
Theorem read_only_methods
    (compareSync : string -> string -> bool) (u p t c : string) (w : world) :
  check_username u w = (Returned (user_exists u w), w)
  /\ check_invite_code c w = (Returned (has_invite c w), w)
  /\ (if user_exists u w
      then exists matches is_admin,
             check_password compareSync u p w = (Returned matches, w)
             /\ check_admin u w = (Returned is_admin, w)
      else check_password compareSync u p w = (Threw TypeError, w)
           /\ check_admin u w = (Threw TypeError, w))
  /\ (if has_session t w
      then exists owner, get_username t w = (Returned owner, w)
      else get_username t w = (Threw TypeError, w)).
Proof.
  split; [|split; [apply check_invite_code_has_invite|split]].
  - unfold user_exists. destruct (db w) as [d|] eqn:Hdb.
    + now apply check_username_has_user.
    + now apply check_username_closed.
  - unfold user_exists. destruct (db w) as [d|] eqn:Hdb.
    + destruct (has_user u d) eqn:Hu.
      * destruct (select_user_present u d Hu) as [row Hrow].
        exists (compareSync p (User.password row)), (User.is_admin row).
        split; [now apply (check_password_known _ u p w d)|].
        now apply (check_admin_known u w d).
      * apply select_user_absent in Hu.
        unfold check_password, check_admin, bind, get_row.
        rewrite Hdb, Hu. now split.
    + unfold check_password, check_admin, bind, get_row. rewrite Hdb.
      now split.
  - rewrite has_session_find. unfold session_for, get_username, bind, get_row.
    destruct (db w) as [d|]; [|reflexivity].
    destruct (select (SessionByToken t) d) as [s|]; [|reflexivity].
    now exists (Session.username s).
Qed.

Lemma touch_twice (now : Z) (t : string) (s : Session.row) :
  touch now t (touch now t s) = touch now t s.
Proof.
  unfold touch.
  destruct (String.eqb (Session.auth_token s) t) eqn:E; cbn; now rewrite E.
Qed.

(** X24.  Validating a token twice in a row, at one clock reading, is
    the same as validating it once: the same answer, the same world. *)
Theorem check_session_twice (t : string) (w : world) :
  let w' := after (check_session t) w in
  check_session t w' = (fst (check_session t w), w').
Proof.
  unfold after. destruct (session_for t w) as [s|] eqn:Hs.
  - unfold session_for in Hs. destruct (db w) as [d|] eqn:Hdb; [|discriminate].
    rewrite (check_session_known t w d s Hdb Hs). cbn [fst snd].
    erewrite (check_session_known t _ _ (touch (clock w) t s));
      [| reflexivity | cbn [select sessions]; rewrite find_touch;
                       cbn [select] in Hs; now rewrite Hs ].
    cbn [with_db clock db users sessions invites logs].
    rewrite map_map.
    rewrite (map_ext _ _ (touch_twice (clock w) t)).
    unfold touch at 1. apply find_some in Hs. destruct Hs as [_ E].
    now rewrite E.
  - rewrite (check_session_unresolved t w Hs). cbn [fst snd].
    now apply check_session_unresolved.
Qed.
